(** * Route decorators of ninja_extra: a shallow embedding

    This development embeds [ninja_extra/controllers/route/__init__.py]
    (class [Route], its constructor, [_create_route_function] and the
    per-verb decorator factories) and proves the properties stated about
    it.  Python values are embedded as the inductive type [pyval]; raising
    an exception is embedded as the [Raise] constructor of [result]. *)

From Stdlib Require Import ZArith Ascii String List Bool Lia Permutation.
From stdpp Require Import base decidable list strings pretty gmap.

Set Warnings "-register-all".

Local Open Scope string_scope.
Local Open Scope list_scope.
Local Open Scope Z_scope.

(** ** Python values *)

(** The values that reach the constructor.  [NOT_SET] is ninja's sentinel
    object.  [PyControllerResponse cls code schema] is a typed response:
    with [cls = true] a class whose metaclass is [ControllerResponseMeta],
    with [cls = false] an instance of [ControllerResponse]; [code] is its
    [status_code] and [schema] the value of [get_schema()].  [PyObj] stands
    for every other object (a schema class, an auth object, ...), known by
    its name.  A dict is its list of entries in insertion order. *)
Inductive pyval : Type :=
| NOT_SET
| PyNone
| PyInt (n : Z)
| PyStr (s : string)
| PyObj (name : string)
| PyControllerResponse (cls : bool) (status_code : Z) (schema : pyval)
| PyTuple (items : list pyval)
| PyList (items : list pyval)
| PyDict (entries : list (pyval * pyval)).

(** Structural induction that also reaches the values nested in tuples,
    lists and dicts. *)
Section pyval_nested_ind.
Variable P : pyval -> Prop.
Hypothesis H_NOT_SET : P NOT_SET.
Hypothesis H_None : P PyNone.
Hypothesis H_Int : forall n, P (PyInt n).
Hypothesis H_Str : forall s, P (PyStr s).
Hypothesis H_Obj : forall s, P (PyObj s).
Hypothesis H_Resp : forall c n s, P s -> P (PyControllerResponse c n s).
Hypothesis H_Tuple : forall l, Forall P l -> P (PyTuple l).
Hypothesis H_List : forall l, Forall P l -> P (PyList l).
Hypothesis H_Dict :
  forall d, Forall (fun kv => P (fst kv) /\ P (snd kv)) d -> P (PyDict d).

Fixpoint pyval_nested_ind (v : pyval) : P v :=
  match v with
  | NOT_SET => H_NOT_SET
  | PyNone => H_None
  | PyInt n => H_Int n
  | PyStr s => H_Str s
  | PyObj s => H_Obj s
  | PyControllerResponse c n s => H_Resp c n s (pyval_nested_ind s)
  | PyTuple l =>
      H_Tuple l
        ((fix go (l : list pyval) : Forall P l :=
            match l with
            | [] => Forall_nil_2 P
            | x :: xs => Forall_cons_2 P x xs (pyval_nested_ind x) (go xs)
            end) l)
  | PyList l =>
      H_List l
        ((fix go (l : list pyval) : Forall P l :=
            match l with
            | [] => Forall_nil_2 P
            | x :: xs => Forall_cons_2 P x xs (pyval_nested_ind x) (go xs)
            end) l)
  | PyDict d =>
      H_Dict d
        ((fix go (d : list (pyval * pyval))
            : Forall (fun kv => P (fst kv) /\ P (snd kv)) d :=
            match d with
            | [] => Forall_nil_2 _
            | (k, x) :: xs =>
                Forall_cons_2 (fun kv => P (fst kv) /\ P (snd kv)) (k, x) xs
                  (conj (pyval_nested_ind k) (pyval_nested_ind x)) (go xs)
            end) d)
  end.
End pyval_nested_ind.

(** Equality of values, as [==] decides it on the values of this model.
    Objects are compared by name, which stands for their identity. *)
Fixpoint pyval_eqb (a b : pyval) {struct a} : bool :=
  match a, b with
  | NOT_SET, NOT_SET => true
  | PyNone, PyNone => true
  | PyInt m, PyInt n => Z.eqb m n
  | PyStr s, PyStr t => String.eqb s t
  | PyObj s, PyObj t => String.eqb s t
  | PyControllerResponse c m s, PyControllerResponse c' n t =>
      Bool.eqb c c' && Z.eqb m n && pyval_eqb s t
  | PyTuple l, PyTuple l' =>
      (fix go (l l' : list pyval) : bool :=
         match l, l' with
         | [], [] => true
         | x :: xs, y :: ys => pyval_eqb x y && go xs ys
         | _, _ => false
         end) l l'
  | PyList l, PyList l' =>
      (fix go (l l' : list pyval) : bool :=
         match l, l' with
         | [], [] => true
         | x :: xs, y :: ys => pyval_eqb x y && go xs ys
         | _, _ => false
         end) l l'
  | PyDict d, PyDict d' =>
      (fix go (d d' : list (pyval * pyval)) : bool :=
         match d, d' with
         | [], [] => true
         | (k, x) :: xs, (k', y) :: ys =>
             pyval_eqb k k' && pyval_eqb x y && go xs ys
         | _, _ => false
         end) d d'
  | _, _ => false
  end.

(** [hash(v)] succeeds: lists and dicts are unhashable, a tuple is
    hashable when all its components are. *)
Fixpoint hashable (v : pyval) : bool :=
  match v with
  | PyList _ | PyDict _ => false
  | PyTuple l => forallb hashable l
  | _ => true
  end.

(** Truth value of a value, as [or] and [not] test it. *)
Definition truthy (v : pyval) : bool :=
  match v with
  | PyNone => false
  | PyInt n => negb (Z.eqb n 0)
  | PyStr s => negb (String.eqb s "")
  | PyTuple [] | PyList [] | PyDict [] => false
  | _ => true
  end.

(** [a or b] *)
Definition py_or (a b : pyval) : pyval := if truthy a then a else b.

(** ** Dictionaries *)

(** A dict in insertion order.  [dict_setitem d k v] is [d[k] = v]: an
    existing key keeps its place and takes the new value, a new key goes
    to the end. *)
Definition dict : Type := list (pyval * pyval).

Fixpoint dict_setitem (d : dict) (k v : pyval) : dict :=
  match d with
  | [] => [(k, v)]
  | (k', v') :: d' =>
      if pyval_eqb k' k then (k', v) :: d' else (k', v') :: dict_setitem d' k v
  end.

(** [d.update(other)] *)
Definition dict_update (d other : dict) : dict :=
  fold_left (fun acc kv => dict_setitem acc (fst kv) (snd kv)) other d.

(** [d.get(k)] *)
Fixpoint dict_get (d : dict) (k : pyval) : option pyval :=
  match d with
  | [] => None
  | (k', v') :: d' => if pyval_eqb k' k then Some v' else dict_get d' k
  end.

Definition dict_keys (d : dict) : list pyval := map fst d.

(** ** Strings *)

(** [c.upper()] on an ASCII character. *)
Definition upper_ascii (c : ascii) : ascii :=
  let n := nat_of_ascii c in
  if (Nat.leb 97 n && Nat.leb n 122)%bool then ascii_of_nat (n - 32) else c.

(** [s.upper()]; verbs are ASCII text. *)
Fixpoint upper (s : string) : string :=
  match s with
  | EmptyString => EmptyString
  | String c s' => String (upper_ascii c) (upper s')
  end.

(** [sep.join(l)] *)
Definition join (sep : string) (l : list string) : string := String.concat sep l.

(** [s] occurs in [t] as a contiguous piece. *)
Definition occurs_in (s t : string) : Prop :=
  exists pre post : string, t = pre +:+ s +:+ post.


(** ** Exceptions and results *)

(** The exceptions the constructor can raise.  Only
    [RouteInvalidParameterException] is declared by the module; the other
    three are Python's own, raised by [m.upper()] on a value without that
    method, by [item[i]] out of range and by an unhashable dict key. *)
Inductive exception : Type :=
| RouteInvalidParameterException (message : string)
| AttributeError
| IndexError
| TypeError.

Inductive result (A : Type) : Type :=
| Ok (a : A)
| Raise (e : exception).
Arguments Ok {A} a.
Arguments Raise {A} e.

Definition bind {A B : Type} (r : result A) (f : A -> result B) : result B :=
  match r with
  | Ok a => f a
  | Raise e => Raise e
  end.

Notation "'let*' x ':=' r 'in' k" := (bind r (fun x => k))
  (at level 10, x name, r at level 100, k at level 200).

Definition is_invalid_parameter {A : Type} (r : result A) : Prop :=
  exists message, r = Raise (RouteInvalidParameterException message).

(** ** Constants *)

(** Modelled from the spec: the verb constants of [ninja_extra.constants],
    which is not among the sources; the spec and the docstrings name the
    verbs GET, POST, PUT, PATCH and DELETE. *)
Definition GET : string := "GET".
Definition POST : string := "POST".
Definition PUT : string := "PUT".
Definition PATCH : string := "PATCH".
Definition DELETE : string := "DELETE".

(** Modelled from the spec: the allow-list [ROUTE_METHODS] of
    [ninja_extra.constants], as the docstring of [Route.generic] lists it.
    The constructor below takes the allow-list as a parameter; this value
    instantiates it. *)
Definition constants_ROUTE_METHODS : list string := [POST; PUT; PATCH; DELETE; GET].

(** ** Records *)

(** The decorated handler, as far as this module inspects it: whether it
    is a coroutine function ([async def]) and the resolved return-type
    hint, if it declares one. *)
Record TCallable : Type := {
  coroutine : bool;
  return_hint : option pyval
}.

(** [ninja.signature.is_async] *)
Definition ninja_is_async (view_func : TCallable) : bool := coroutine view_func.

(** [get_type_hints(view_func).get("return")]: [None] when the handler
    declares no return type. *)
Definition get_return_hint (view_func : TCallable) : pyval :=
  match return_hint view_func with
  | Some T => T
  | None => PyNone
  end.

(** Modelled from the spec: [RouteParameter] of [ninja_extra.schemas], which
    is not among the sources.  Its fields are those of section 3 of the
    specification; each holds the keyword argument that [Route.__init__]
    passes under that name, so that [methods] holds the list built at
    line 53 and [response] the value [_response]. *)
Record RouteParameter : Type := {
  path : string;
  methods : list string;
  auth : pyval;
  response : pyval;
  operation_id : option string;
  summary : option string;
  description : option string;
  tags : option (list string);
  deprecated : option bool;
  by_alias : bool;
  exclude_unset : bool;
  exclude_defaults : bool;
  exclude_none : bool;
  url_name : option string;
  include_in_schema : bool
}.

(** The keyword arguments shared by the constructor, the build step and
    the decorator factories, with the defaults of their signatures. *)
Record route_kwargs : Type := {
  kw_auth : pyval;
  kw_response : pyval;
  kw_operation_id : option string;
  kw_summary : option string;
  kw_description : option string;
  kw_tags : option (list string);
  kw_deprecated : option bool;
  kw_by_alias : bool;
  kw_exclude_unset : bool;
  kw_exclude_defaults : bool;
  kw_exclude_none : bool;
  kw_url_name : option string;
  kw_include_in_schema : bool;
  kw_permissions : option (list pyval)
}.

Definition default_kwargs : route_kwargs := {|
  kw_auth := NOT_SET;
  kw_response := NOT_SET;
  kw_operation_id := None;
  kw_summary := None;
  kw_description := None;
  kw_tags := None;
  kw_deprecated := None;
  kw_by_alias := false;
  kw_exclude_unset := false;
  kw_exclude_defaults := false;
  kw_exclude_none := false;
  kw_url_name := None;
  kw_include_in_schema := true;
  kw_permissions := None
|}.

Definition with_response (kw : route_kwargs) (r : pyval) : route_kwargs := {|
  kw_auth := kw_auth kw;
  kw_response := r;
  kw_operation_id := kw_operation_id kw;
  kw_summary := kw_summary kw;
  kw_description := kw_description kw;
  kw_tags := kw_tags kw;
  kw_deprecated := kw_deprecated kw;
  kw_by_alias := kw_by_alias kw;
  kw_exclude_unset := kw_exclude_unset kw;
  kw_exclude_defaults := kw_exclude_defaults kw;
  kw_exclude_none := kw_exclude_none kw;
  kw_url_name := kw_url_name kw;
  kw_include_in_schema := kw_include_in_schema kw;
  kw_permissions := kw_permissions kw
|}.

(** The state of a [Route] instance. *)
Record Route : Type := {
  route_params : RouteParameter;
  is_async : bool;
  permissions : option (list pyval);
  view_func : TCallable
}.

(** Modelled from the spec: the two wrapper classes of [.route_functions],
    which is not among the sources: a value tagged synchronous or
    asynchronous that wraps one route descriptor. *)
Inductive route_function : Type :=
| RouteFunction (route : Route)
| AsyncRouteFunction (route : Route).

Definition route_of (f : route_function) : Route :=
  match f with
  | RouteFunction r => r
  | AsyncRouteFunction r => r
  end.

(** ** The constructor and the build step *)

(** [(inspect.isclass(v) and type(v) == ControllerResponseMeta)
     or isinstance(v, ControllerResponse)] *)
Definition is_controller_response (v : pyval) : bool :=
  match v with
  | PyControllerResponse _ _ _ => true
  | _ => false
  end.

(** [{v.status_code: v.get_schema()}] for a typed response [v]. *)
Definition controller_response_entry (v : pyval) : dict :=
  match v with
  | PyControllerResponse _ status_code schema => [(PyInt status_code, schema)]
  | _ => []
  end.

(** [t[i]] on a tuple. *)
Definition getitem (t : list pyval) (i : nat) : result pyval :=
  match t !! i with
  | Some v => Ok v
  | None => Raise IndexError
  end.

(** The dict display [{k: v}], once [k] and [v] are evaluated. *)
Definition dict_display (k v : pyval) : result dict :=
  if hashable k then Ok [(k, v)] else Raise TypeError.

(** One turn of the loop over a [response] list: the entries that [item]
    contributes to [_response_computed]. *)
Definition response_item (_response_computed : dict) (item : pyval) : result dict :=
  if is_controller_response item then
    Ok (dict_update _response_computed (controller_response_entry item))
  else
    match item with
    | PyDict d => Ok (dict_update _response_computed d)
    | PyTuple t =>
        let* k := getitem t 0 in
        let* v := getitem t 1 in
        let* kv := dict_display k v in
        Ok (dict_update _response_computed kv)
    | _ => Ok _response_computed
    end.

(** The loop [for item in response], from the dict built so far. *)
Fixpoint response_loop (_response_computed : dict) (items : list pyval) : result dict :=
  match items with
  | [] => Ok _response_computed
  | item :: rest =>
      let* d := response_item _response_computed item in
      response_loop d rest
  end.

(** [m.upper()] for each [m] of [methods]. *)
Fixpoint upper_all (ms : list pyval) : result (list string) :=
  match ms with
  | [] => Ok []
  | PyStr m :: rest =>
      let* rest' := upper_all rest in
      Ok (upper m :: rest')
  | _ :: _ => Raise AttributeError
  end.

(** ** Reference definitions for the statements *)

(** The normal form of one element of a response sequence, in the words
    of the specification: a typed response stands for
    [{status_code: schema}], a mapping for itself, a tuple for
    [{first: second}], anything else for nothing. *)
Definition normalized_entries (item : pyval) : dict :=
  match item with
  | PyControllerResponse _ status_code schema => [(PyInt status_code, schema)]
  | PyDict d => d
  | PyTuple (k :: v :: _) => [(k, v)]
  | _ => []
  end.

(** Last-write-wins lookup in a sequence of entries: the value of the last
    entry whose key is [k]. *)
Fixpoint last_write (entries : dict) (k : pyval) : option pyval :=
  match entries with
  | [] => None
  | (k', v) :: rest =>
      match last_write rest k with
      | Some w => Some w
      | None => if pyval_eqb k' k then Some v else None
      end
  end.

(** An element the loop can merge: every value but a tuple with fewer than
    two components or with an unhashable first component. *)
Definition mergeable (item : pyval) : bool :=
  match item with
  | PyTuple (k :: _ :: _) => hashable k
  | PyTuple _ => false
  | _ => true
  end.

(** An element that contributes no entry: an empty mapping, or a value
    that is neither a typed response, nor a mapping, nor a tuple. *)
Definition yields_nothing (item : pyval) : bool :=
  match item with
  | PyControllerResponse _ _ _ => false
  | PyTuple _ => false
  | PyDict (_ :: _) => false
  | _ => true
  end.

(** The keys that a [response] argument supplies: the status code of a
    typed response; for a list, the keys of its elements' normal forms. *)
Definition supplied_keys (response : pyval) : list pyval :=
  match response with
  | PyControllerResponse _ status_code _ => [PyInt status_code]
  | PyList items => dict_keys (concat (map normalized_entries items))
  | _ => []
  end.

(** The tag of a route-function value. *)
Definition is_async_variant (f : route_function) : bool :=
  match f with
  | RouteFunction _ => false
  | AsyncRouteFunction _ => true
  end.

(** [methods] is typed as its annotation [List[str]] says whenever it is a
    list. *)
Definition well_typed_methods (methods : pyval) : Prop :=
  forall l, methods = PyList l -> exists ms : list string, l = map PyStr ms.

(** ** Values for the examples *)

(** An instance of [str] for the examples: None, integers, tuples, lists
    and dicts as Python prints them, an object as its name. *)
Fixpoint example_str (v : pyval) : string :=
  match v with
  | NOT_SET => "NOT_SET"
  | PyNone => "None"
  | PyInt n => pretty n
  | PyStr s => "'" +:+ s +:+ "'"
  | PyObj name => name
  | PyControllerResponse _ status_code schema =>
      "ControllerResponse(" +:+ pretty status_code +:+ ", "
        +:+ example_str schema +:+ ")"
  | PyTuple l => "(" +:+ join ", " (map example_str l) +:+ ")"
  | PyList l => "[" +:+ join ", " (map example_str l) +:+ "]"
  | PyDict d =>
      "{" +:+ join ", " (map (fun kv => example_str (fst kv) +:+ ": "
                                          +:+ example_str (snd kv)) d) +:+ "}"
  end.

(** [def list_items(self) -> ItemSchema] and
    [async def fetch_items(self)]. *)
Definition sync_handler : TCallable :=
  {| coroutine := false; return_hint := Some (PyObj "ItemSchema") |}.

Definition async_handler : TCallable :=
  {| coroutine := true; return_hint := None |}.

(** [[{200: SchemaA}, (201, SchemaB), ControllerResponse(404, SchemaC),
     {200: SchemaD}]] *)
Definition mixed_response : list pyval :=
  [ PyDict [(PyInt 200, PyObj "SchemaA")];
    PyTuple [PyInt 201; PyObj "SchemaB"];
    PyControllerResponse false 404 (PyObj "SchemaC");
    PyDict [(PyInt 200, PyObj "SchemaD")] ].

(** Keyword arguments that are the defaults but for a [response] list. *)
Definition with_items (items : list pyval) : route_kwargs :=
  with_response default_kwargs (PyList items).

(** The keys of a sequence of entries, each kept at its first
    occurrence. *)
Fixpoint first_occurrences (keys : list pyval) : list pyval :=
  match keys with
  | [] => []
  | k :: rest =>
      k :: List.filter (fun k' => negb (pyval_eqb k k')) (first_occurrences rest)
  end.

(** [s] is ASCII text: every character of it is below 128.  On such
    text [upper] is [str.upper()], which turns a-z into A-Z and leaves the
    other ASCII characters alone; beyond ASCII [str.upper()] follows the
    case mapping of Unicode, which [upper] does not embed. *)
Definition ascii_text (s : string) : bool :=
  forallb (fun c => Nat.ltb (nat_of_ascii c) 128) (list_ascii_of_string s).

(** The strings of a [methods] list are ASCII text. *)
Definition ascii_methods (methods : pyval) : bool :=
  match methods with
  | PyList l =>
      forallb (fun v => match v with PyStr s => ascii_text s | _ => true end) l
  | _ => true
  end.

(** Values that have no attribute [upper]: the sentinel (a bare
    [object()]), None, integers, tuples, lists and dicts. *)
Definition lacks_upper (v : pyval) : bool :=
  match v with
  | NOT_SET | PyNone | PyInt _ | PyTuple _ | PyList _ | PyDict _ => true
  | _ => false
  end.

Section Route.

(** The allow-list [ROUTE_METHODS] imported from [ninja_extra.constants]. *)
Variable ROUTE_METHODS : list string.

(** [list(s)] for a set [s] of strings: the order in which Python
    iterates over a set is not fixed, only its elements are. *)
Variable list_of_set : gset string -> list string.
Hypothesis list_of_set_elements : forall X, list_of_set X ≡ₚ elements X.

(** [str(v)], as an f-string formats a value. *)
Variable py_str : pyval -> string.

(** [list(set(methods) - set(ROUTE_METHODS))] *)
Definition not_valid_methods (methods : list string) : list string :=
  list_of_set (list_to_set methods ∖ list_to_set ROUTE_METHODS).

(** Lines 60 to 82: the normalisation of the [response] argument. *)
Definition normalize_response (response : pyval) : result pyval :=
  if is_controller_response response then
    Ok (PyDict (controller_response_entry response))
  else
    match response with
    | PyList items =>
        let* _response_computed := response_loop [] items in
        match _response_computed with
        | [] =>
            Raise (RouteInvalidParameterException
                     ("Invalid response configuration: " +:+ py_str response))
        | _ :: _ => Ok (PyDict _response_computed)
        end
    | _ => Ok response
    end.

(** [Route.__init__] *)
Definition Route_init (view_func : TCallable) (path : string) (methods : pyval)
    (kw : route_kwargs) : result Route :=
  match methods with
  | PyList ms =>
      let* methods := upper_all ms in
      let not_valid := not_valid_methods methods in
      match not_valid with
      | _ :: _ =>
          Raise (RouteInvalidParameterException
                   ("Method " +:+ join "," not_valid +:+ " not allowed"))
      | [] =>
          let* _response := normalize_response (kw_response kw) in
          Ok {| route_params := {|
                  path := path;
                  methods := methods;
                  auth := kw_auth kw;
                  response := _response;
                  operation_id := kw_operation_id kw;
                  summary := kw_summary kw;
                  description := kw_description kw;
                  tags := kw_tags kw;
                  deprecated := kw_deprecated kw;
                  by_alias := kw_by_alias kw;
                  exclude_unset := kw_exclude_unset kw;
                  exclude_defaults := kw_exclude_defaults kw;
                  exclude_none := kw_exclude_none kw;
                  url_name := kw_url_name kw;
                  include_in_schema := kw_include_in_schema kw
                |};
                is_async := ninja_is_async view_func;
                permissions := kw_permissions kw;
                view_func := view_func |}
      end
  | _ => Raise (RouteInvalidParameterException "methods must be a list")
  end.

(** Lines 128 and 129: the response handed to the constructor. *)
Definition resolve_response (view_func : TCallable) (response : pyval) : pyval :=
  match response with
  | NOT_SET => py_or (get_return_hint view_func) NOT_SET
  | _ => response
  end.

(** [Route._create_route_function] *)
Definition Route_create_route_function (view_func : TCallable) (path : string)
    (methods : pyval) (kw : route_kwargs) : result route_function :=
  let response := resolve_response view_func (kw_response kw) in
  let* route_obj := Route_init view_func path methods (with_response kw response) in
  Ok (if is_async route_obj then AsyncRouteFunction route_obj
      else RouteFunction route_obj).

(** The decorator factories: each returns the decorator, a function of
    the handler. *)
Definition Route_get (path : string) (kw : route_kwargs)
  : TCallable -> result route_function :=
  fun view_func => Route_create_route_function view_func path (PyList [PyStr GET]) kw.

Definition Route_post (path : string) (kw : route_kwargs)
  : TCallable -> result route_function :=
  fun view_func => Route_create_route_function view_func path (PyList [PyStr POST]) kw.

Definition Route_delete (path : string) (kw : route_kwargs)
  : TCallable -> result route_function :=
  fun view_func => Route_create_route_function view_func path (PyList [PyStr DELETE]) kw.

Definition Route_patch (path : string) (kw : route_kwargs)
  : TCallable -> result route_function :=
  fun view_func => Route_create_route_function view_func path (PyList [PyStr PATCH]) kw.

Definition Route_put (path : string) (kw : route_kwargs)
  : TCallable -> result route_function :=
  fun view_func => Route_create_route_function view_func path (PyList [PyStr PUT]) kw.

Definition Route_generic (path : string) (methods : pyval) (kw : route_kwargs)
  : TCallable -> result route_function :=
  fun view_func => Route_create_route_function view_func path methods kw.

Lemma pyval_eqb_refl v : pyval_eqb v v = true.
Proof.
induction v using pyval_nested_ind; simpl; auto.
- apply Z.eqb_refl.
- apply String.eqb_refl.
- apply String.eqb_refl.
- rewrite Bool.eqb_reflx, Z.eqb_refl, IHv. reflexivity.
- induction H as [|x xs Hx _ IH]; [reflexivity|]. rewrite Hx, IH. reflexivity.
- induction H as [|x xs Hx _ IH]; [reflexivity|]. rewrite Hx, IH. reflexivity.
- induction H as [|[k x] xs [Hk Hx] _ IH]; [reflexivity|].
  simpl in Hk, Hx. rewrite Hk, Hx, IH. reflexivity.
Qed.

Lemma pyval_eqb_eq a b : pyval_eqb a b = true -> a = b.
Proof.
revert b. induction a using pyval_nested_ind; intros b Hb; destruct b; simpl in Hb;
  try discriminate; auto.
- apply Z.eqb_eq in Hb. congruence.
- apply String.eqb_eq in Hb. congruence.
- apply String.eqb_eq in Hb. congruence.
- apply andb_prop in Hb as [Hb H3]. apply andb_prop in Hb as [H1 H2].
  apply Bool.eqb_prop in H1. apply Z.eqb_eq in H2. apply IHa in H3. congruence.
- f_equal. revert items Hb.
  induction H as [|x xs Hx _ IH]; intros [|y ys] Hb; try discriminate; auto.
  apply andb_prop in Hb as [H1 H2]. f_equal; auto.
- f_equal. revert items Hb.
  induction H as [|x xs Hx _ IH]; intros [|y ys] Hb; try discriminate; auto.
  apply andb_prop in Hb as [H1 H2]. f_equal; auto.
- f_equal. revert entries Hb.
  induction H as [|[k x] xs [Hk Hx] _ IH]; intros [|[k' y] ys] Hb;
    try discriminate; auto.
  apply andb_prop in Hb as [Hb H3]. apply andb_prop in Hb as [H1 H2].
  simpl in Hk, Hx. f_equal; auto. f_equal; auto.
Qed.

(** ** Lemmas on values and dicts *)

Lemma pyval_eqb_true_iff a b : pyval_eqb a b = true <-> a = b.
Proof.
  split; [apply pyval_eqb_eq | intros ->; apply pyval_eqb_refl].
Qed.

Lemma pyval_eqb_false_iff a b : pyval_eqb a b = false <-> a <> b.
Proof.
  rewrite <- pyval_eqb_true_iff. destruct (pyval_eqb a b); split; congruence.
Qed.

Lemma dict_get_setitem d k v k' :
  dict_get (dict_setitem d k v) k' =
    if pyval_eqb k k' then Some v else dict_get d k'.
Proof.
  induction d as [|[k0 v0] d IH]; simpl.
  - reflexivity.
  - destruct (pyval_eqb k0 k) eqn:E0; simpl.
    + apply pyval_eqb_eq in E0. subst k0. destruct (pyval_eqb k k'); reflexivity.
    + rewrite IH. destruct (pyval_eqb k0 k') eqn:E1; [|reflexivity].
      apply pyval_eqb_eq in E1. subst k0.
      destruct (pyval_eqb k k') eqn:E2; [|reflexivity].
      apply pyval_eqb_eq in E2. subst k. rewrite pyval_eqb_refl in E0. discriminate.
Qed.

Lemma dict_keys_setitem d k v :
  ((k ∈ dict_keys d) /\ dict_keys (dict_setitem d k v) = dict_keys d) \/
  ((k ∉ dict_keys d) /\ dict_keys (dict_setitem d k v) = dict_keys d ++ [k]).
Proof.
  induction d as [|[k0 v0] d IH]; simpl.
  - right. split; [apply not_elem_of_nil | reflexivity].
  - destruct (pyval_eqb k0 k) eqn:E0; simpl.
    + apply pyval_eqb_eq in E0. subst k0.
      left. split; [apply elem_of_cons; by left | reflexivity].
    + apply pyval_eqb_false_iff in E0.
      fold (dict_keys d) in *. fold (dict_keys (dict_setitem d k v)).
      destruct IH as [[Hin ->]|[Hout ->]].
      * left. split; [apply elem_of_cons; by right | reflexivity].
      * right. split; [|reflexivity].
        rewrite elem_of_cons. intros [->|?]; congruence.
Qed.

Lemma dict_setitem_NoDup d k v :
  NoDup (dict_keys d) -> NoDup (dict_keys (dict_setitem d k v)).
Proof.
  intros Hd. destruct (dict_keys_setitem d k v) as [[_ ->]|[Hk ->]]; [exact Hd|].
  apply NoDup_app. split; [exact Hd|]. split.
  - intros x Hx Hx'. apply list_elem_of_singleton in Hx'. congruence.
  - apply NoDup_singleton.
Qed.

Lemma dict_setitem_not_nil d k v : dict_setitem d k v <> [].
Proof.
  destruct d as [|[k0 v0] d]; simpl; [discriminate|].
  destruct (pyval_eqb k0 k); discriminate.
Qed.

Lemma dict_keys_setitem_elem d k v x :
  x ∈ dict_keys (dict_setitem d k v) <-> x ∈ dict_keys d \/ x = k.
Proof.
  destruct (dict_keys_setitem d k v) as [[Hk ->]|[Hk ->]].
  - split; [tauto|]. intros [?| ->]; assumption.
  - rewrite elem_of_app, list_elem_of_singleton. reflexivity.
Qed.

Lemma dict_update_app d e1 e2 :
  dict_update d (e1 ++ e2) = dict_update (dict_update d e1) e2.
Proof. unfold dict_update. apply fold_left_app. Qed.

Lemma dict_update_cons d kv e :
  dict_update d (kv :: e) = dict_update (dict_setitem d (fst kv) (snd kv)) e.
Proof. reflexivity. Qed.

Lemma dict_get_update e : forall d k,
  dict_get (dict_update d e) k =
    match last_write e k with
    | Some w => Some w
    | None => dict_get d k
    end.
Proof.
  induction e as [|[k0 v0] e IH]; intros d k.
  - reflexivity.
  - rewrite dict_update_cons, IH. simpl.
    destruct (last_write e k); [reflexivity|].
    rewrite dict_get_setitem. destruct (pyval_eqb k0 k); reflexivity.
Qed.

Lemma dict_update_NoDup e : forall d,
  NoDup (dict_keys d) -> NoDup (dict_keys (dict_update d e)).
Proof.
  induction e as [|[k0 v0] e IH]; intros d Hd; [exact Hd|].
  rewrite dict_update_cons. apply IH, dict_setitem_NoDup, Hd.
Qed.

Lemma dict_update_nil_iff e : forall d,
  dict_update d e = [] <-> d = [] /\ e = [].
Proof.
  induction e as [|[k0 v0] e IH]; intros d.
  - simpl. unfold dict_update. simpl. split; [auto | tauto].
  - rewrite dict_update_cons, IH. split.
    + intros [H _]. exfalso. exact (dict_setitem_not_nil _ _ _ H).
    + intros [_ H]. discriminate.
Qed.

Lemma dict_keys_update_elem e : forall d x,
  x ∈ dict_keys (dict_update d e) <-> x ∈ dict_keys d \/ x ∈ dict_keys e.
Proof.
  induction e as [|[k0 v0] e IH]; intros d x.
  - simpl. rewrite elem_of_nil. unfold dict_update. simpl. tauto.
  - rewrite dict_update_cons, IH, dict_keys_setitem_elem. simpl.
    rewrite elem_of_cons. tauto.
Qed.

(** ** Lemmas on the response loop *)

Lemma response_item_sound acc item d :
  response_item acc item = Ok d ->
  d = dict_update acc (normalized_entries item).
Proof.
  unfold response_item. destruct item as [| | | | | c n s | t | l | e]; simpl;
    try (intros [= <-]; reflexivity).
  destruct t as [|k [|v t]]; simpl; try discriminate.
  unfold dict_display. destruct (hashable k); simpl; [|discriminate].
  intros [= <-]. reflexivity.
Qed.

Lemma response_item_mergeable acc item :
  mergeable item = true ->
  response_item acc item = Ok (dict_update acc (normalized_entries item)).
Proof.
  unfold response_item. destruct item as [| | | | | c n s | t | l | e]; simpl;
    try reflexivity.
  destruct t as [|k [|v t]]; simpl; try discriminate.
  unfold dict_display. intros ->. reflexivity.
Qed.

Lemma response_loop_sound items : forall acc d,
  response_loop acc items = Ok d ->
  d = dict_update acc (concat (map normalized_entries items)).
Proof.
  induction items as [|item items IH]; intros acc d; simpl.
  - intros [= <-]. reflexivity.
  - destruct (response_item acc item) as [d1|e] eqn:E1; simpl; [|discriminate].
    intros H. apply IH in H. apply response_item_sound in E1. subst d1.
    rewrite dict_update_app. exact H.
Qed.

Lemma response_loop_mergeable items : forall acc,
  Forall (fun item => mergeable item = true) items ->
  response_loop acc items =
    Ok (dict_update acc (concat (map normalized_entries items))).
Proof.
  induction items as [|item items IH]; intros acc Hall; simpl.
  - reflexivity.
  - apply Forall_cons in Hall as [H1 H2].
    rewrite (response_item_mergeable _ _ H1). simpl.
    rewrite (IH _ H2), dict_update_app. reflexivity.
Qed.

Lemma yields_nothing_spec item :
  yields_nothing item = true <->
  mergeable item = true /\ normalized_entries item = [].
Proof.
  destruct item as [| | | | | c n s | t | l | e]; simpl;
    try (split; [auto | reflexivity]).
  - split; [discriminate | intros [_ H]; discriminate].
  - split; [discriminate|]. destruct t as [|k [|v t]]; intros [H1 H2]; discriminate.
  - destruct e; split; auto; try discriminate. intros [_ H]; discriminate.
Qed.

Lemma concat_nil_Forall {A : Type} (ls : list (list A)) :
  concat ls = [] <-> Forall (fun l => l = []) ls.
Proof.
  induction ls as [|l ls IH]; simpl.
  - split; auto.
  - rewrite Forall_cons, <- IH. split.
    + intros H. apply app_eq_nil in H. exact H.
    + intros [-> ->]. reflexivity.
Qed.

(** The loop ends with an empty dict exactly when it started from one
    and every element contributes nothing. *)
Lemma response_loop_nil_iff items : forall acc,
  response_loop acc items = Ok [] <->
  acc = [] /\ Forall (fun item => yields_nothing item = true) items.
Proof.
  induction items as [|item items IH]; intros acc; simpl.
  - split; [intros [= ->]; auto | intros [-> _]; reflexivity].
  - rewrite Forall_cons. split.
    + destruct (response_item acc item) as [d1|e] eqn:E1; simpl; [|discriminate].
      intros H. apply IH in H as [-> Hrest].
      assert (Hm : mergeable item = true).
      { destruct (mergeable item) eqn:Em; [reflexivity|]. exfalso.
        destruct item as [| | | | | c n s | t | l | e]; try discriminate.
        unfold response_item in E1. simpl in E1.
        destruct t as [|k [|v t]]; simpl in *; try discriminate.
        unfold dict_display in E1. rewrite Em in E1. discriminate. }
      apply response_item_sound in E1. symmetry in E1.
      apply dict_update_nil_iff in E1 as [-> Hn].
      repeat split; auto. apply yields_nothing_spec. auto.
    + intros (-> & H1 & H2). apply yields_nothing_spec in H1 as [Hm Hn].
      rewrite (response_item_mergeable _ _ Hm), Hn. simpl.
      apply IH. auto.
Qed.

Lemma response_loop_app l1 : forall acc l2,
  response_loop acc (l1 ++ l2) =
    let* d := response_loop acc l1 in response_loop d l2.
Proof.
  induction l1 as [|item l1 IH]; intros acc l2; simpl; [reflexivity|].
  destruct (response_item acc item); simpl; [apply IH | reflexivity].
Qed.

Lemma response_item_raises_kind acc item e :
  response_item acc item = Raise e -> e = IndexError \/ e = TypeError.
Proof.
  unfold response_item. destruct item as [| | | | | c n s | t | l | d]; simpl;
    try discriminate.
  destruct t as [|k [|v t]]; simpl; try (intros [= <-]; auto).
  unfold dict_display. destruct (hashable k); simpl; [discriminate|].
  intros [= <-]. auto.
Qed.

Lemma response_loop_raises items : forall acc e,
  response_loop acc items = Raise e -> e = IndexError \/ e = TypeError.
Proof.
  induction items as [|item items IH]; intros acc e; simpl; [discriminate|].
  destruct (response_item acc item) as [d|e'] eqn:E1; simpl.
  - apply IH.
  - intros [= <-]. eapply response_item_raises_kind, E1.
Qed.

(** ** Lemmas on the verbs *)

Lemma upper_all_strs ms : upper_all (map PyStr ms) = Ok (map upper ms).
Proof.
  induction ms as [|m ms IH]; simpl; [reflexivity|]. rewrite IH. reflexivity.
Qed.

Lemma elem_of_not_valid_methods methods m :
  m ∈ not_valid_methods methods <-> m ∈ methods /\ (m ∉ ROUTE_METHODS).
Proof.
  unfold not_valid_methods. rewrite list_of_set_elements, elem_of_elements.
  rewrite elem_of_difference, !elem_of_list_to_set. reflexivity.
Qed.

Lemma NoDup_not_valid_methods methods : NoDup (not_valid_methods methods).
Proof.
  unfold not_valid_methods. rewrite list_of_set_elements. apply NoDup_elements.
Qed.

Lemma not_valid_methods_nil methods :
  not_valid_methods methods = [] <-> forall m, m ∈ methods -> m ∈ ROUTE_METHODS.
Proof.
  split.
  - intros Hnil m Hm. destruct (decide (m ∈ ROUTE_METHODS)) as [|Hout]; [assumption|].
    exfalso. assert (Hin : m ∈ not_valid_methods methods)
      by (apply elem_of_not_valid_methods; auto).
    rewrite Hnil in Hin. by apply elem_of_nil in Hin.
  - intros Hall. apply elem_of_nil_inv. intros m Hin.
    apply elem_of_not_valid_methods in Hin as [H1 H2]. auto.
Qed.

(** The constructor once the verbs have passed the check. *)
Lemma Route_init_allowed vf path ms kw :
  (forall m, m ∈ ms -> upper m ∈ ROUTE_METHODS) ->
  Route_init vf path (PyList (map PyStr ms)) kw =
    let* _response := normalize_response (kw_response kw) in
    Ok {| route_params := {|
            path := path;
            methods := map upper ms;
            auth := kw_auth kw;
            response := _response;
            operation_id := kw_operation_id kw;
            summary := kw_summary kw;
            description := kw_description kw;
            tags := kw_tags kw;
            deprecated := kw_deprecated kw;
            by_alias := kw_by_alias kw;
            exclude_unset := kw_exclude_unset kw;
            exclude_defaults := kw_exclude_defaults kw;
            exclude_none := kw_exclude_none kw;
            url_name := kw_url_name kw;
            include_in_schema := kw_include_in_schema kw
          |};
          is_async := ninja_is_async vf;
          permissions := kw_permissions kw;
          view_func := vf |}.
Proof.
  intros Hall. unfold Route_init. rewrite upper_all_strs. simpl.
  assert (Hnil : not_valid_methods (map upper ms) = []).
  { apply not_valid_methods_nil. intros m Hm.
    apply list_elem_of_fmap in Hm as (m0 & -> & Hm0). auto. }
  rewrite Hnil. reflexivity.
Qed.

(** What a successful construction tells about its arguments. *)
Lemma Route_init_Ok_inv vf path verbs kw r :
  Route_init vf path verbs kw = Ok r ->
  exists ms strs _response,
    verbs = PyList ms /\ upper_all ms = Ok strs /\
    not_valid_methods strs = [] /\
    normalize_response (kw_response kw) = Ok _response /\
    methods (route_params r) = strs /\
    response (route_params r) = _response /\
    is_async r = ninja_is_async vf /\ view_func r = vf.
Proof.
  unfold Route_init. destruct verbs as [| | | | | | |ms|]; try discriminate.
  destruct (upper_all ms) as [strs|] eqn:Eu; simpl; [|discriminate].
  destruct (not_valid_methods strs) eqn:En; [|discriminate].
  destruct (normalize_response (kw_response kw)) as [resp|] eqn:Er; simpl;
    [|discriminate].
  intros [= <-]. exists ms, strs, resp. simpl. repeat split; auto.
Qed.

(** ** Lemmas on strings *)

Lemma string_app_cons a s t : String a s +:+ t = String a (s +:+ t).
Proof. reflexivity. Qed.

Lemma string_app_nil_r s : s +:+ "" = s.
Proof.
  induction s as [|a s IH]; [reflexivity|].
  rewrite string_app_cons, IH. reflexivity.
Qed.

Lemma string_app_assoc s t u : (s +:+ t) +:+ u = s +:+ t +:+ u.
Proof.
  induction s as [|a s IH]; [reflexivity|].
  rewrite !string_app_cons, IH. reflexivity.
Qed.

Lemma occurs_in_refl s : occurs_in s s.
Proof. exists "", "". rewrite string_app_nil_r. reflexivity. Qed.

Lemma occurs_in_app s t pre post :
  occurs_in s t -> occurs_in s (pre +:+ t +:+ post).
Proof.
  intros (a & b & ->). exists (pre +:+ a), (b +:+ post).
  rewrite !string_app_assoc. reflexivity.
Qed.

Lemma join_cons_cons sep x y l :
  join sep (x :: y :: l) = x +:+ sep +:+ join sep (y :: l).
Proof. reflexivity. Qed.

Lemma occurs_in_join sep l s : s ∈ l -> occurs_in s (join sep l).
Proof.
  induction l as [|x l IH]; intros Hin; [by apply elem_of_nil in Hin|].
  destruct l as [|y l].
  - apply list_elem_of_singleton in Hin. subst. apply occurs_in_refl.
  - rewrite join_cons_cons. apply elem_of_cons in Hin as [->|Hin].
    + exists "", (sep +:+ join sep (y :: l)). reflexivity.
    + replace (x +:+ sep +:+ join sep (y :: l))
        with ((x +:+ sep) +:+ join sep (y :: l) +:+ "")
        by (rewrite string_app_nil_r, string_app_assoc; reflexivity).
      apply occurs_in_app, IH, Hin.
Qed.

(** ** Lemmas on the outcome of the constructor *)

Lemma normalize_response_invalid_iff resp :
  is_invalid_parameter (normalize_response resp) <->
  exists items, resp = PyList items /\
                Forall (fun item => yields_nothing item = true) items.
Proof.
  unfold is_invalid_parameter, normalize_response. split.
  - intros [msg Hmsg].
    destruct resp as [| | | | | c n s | t | items | e]; simpl in Hmsg;
      try discriminate.
    exists items. split; [reflexivity|].
    destruct (response_loop [] items) as [d|e] eqn:El; simpl in Hmsg.
    + destruct d; [|discriminate]. apply response_loop_nil_iff in El. tauto.
    + apply response_loop_raises in El. destruct El; subst; discriminate.
  - intros (items & -> & Hall). simpl.
    assert (Hloop : response_loop [] items = Ok [])
      by (apply response_loop_nil_iff; auto).
    rewrite Hloop. simpl. eauto.
Qed.

Lemma classic_list (v : pyval) :
  (exists l, v = PyList l) \/ (forall l, v <> PyList l).
Proof. destruct v; try (right; discriminate). left. eauto. Qed.

Lemma map_PyStr_inj : Inj (=) (=) (map PyStr).
Proof.
  intros l1. induction l1 as [|x l1 IH]; intros [|y l2] H; try discriminate.
  - reflexivity.
  - injection H as -> H. f_equal. auto.
Qed.

(** ** The response argument *)

(** C1.  A [response] list of typed responses, mappings, tuples
    [(status_code, schema)] and values of any other kind is merged in
    order into one mapping: each element counts as its normal form
    (typed response as [{status_code: schema}], mapping as it is, tuple as
    [{first: second}], any other kind as nothing, without error), the
    stored mapping has pairwise distinct keys, and looking a key up in it
    gives the value of the last element entry with that key. *)
Theorem C1_response_sequence_last_write_wins
    (vf : TCallable) (p : string) (ms : list string) (kw : route_kwargs)
    (items : list pyval) :
  (forall m, m ∈ ms -> upper m ∈ ROUTE_METHODS) ->
  kw_response kw = PyList items ->
  Forall (fun item => mergeable item = true) items ->
  concat (map normalized_entries items) <> [] ->
  exists r d,
    Route_init vf p (PyList (map PyStr ms)) kw = Ok r /\
    response (route_params r) = PyDict d /\
    NoDup (dict_keys d) /\
    forall k, dict_get d k = last_write (concat (map normalized_entries items)) k.
Proof.
  intros Hms Hresp Hitems Hne.
  rewrite (Route_init_allowed _ _ _ _ Hms), Hresp.
  unfold normalize_response. simpl.
  rewrite (response_loop_mergeable _ _ Hitems). simpl.
  set (es := concat (map normalized_entries items)) in *.
  destruct (dict_update [] es) as [|kv d] eqn:Ed.
  { apply dict_update_nil_iff in Ed as [_ Hes]. contradiction. }
  simpl. eexists _, (kv :: d). repeat split.
  - rewrite <- Ed. apply dict_update_NoDup. constructor.
  - intros k. rewrite <- Ed, dict_get_update. simpl.
    destruct (last_write es k); reflexivity.
Qed.

(** C6.  A [response] list in which no element yields an entry (the
    empty list, or elements that are all empty mappings or of an
    unrecognised kind, such as [[None]]) makes the construction raise
    [RouteInvalidParameterException] with a message that ends in the text
    of the response as it was supplied. *)
Theorem C6_empty_response_sequence_rejected
    (vf : TCallable) (p : string) (ms : list string) (kw : route_kwargs)
    (items : list pyval) :
  (forall m, m ∈ ms -> upper m ∈ ROUTE_METHODS) ->
  kw_response kw = PyList items ->
  Forall (fun item => yields_nothing item = true) items ->
  Route_init vf p (PyList (map PyStr ms)) kw =
    Raise (RouteInvalidParameterException
             ("Invalid response configuration: " +:+ py_str (PyList items))).
Proof.
  intros Hms Hresp Hitems.
  rewrite (Route_init_allowed _ _ _ _ Hms), Hresp.
  unfold normalize_response. simpl.
  assert (Hloop : response_loop [] items = Ok [])
    by (apply response_loop_nil_iff; auto).
  rewrite Hloop. reflexivity.
Qed.

(** C9, as amended.  After a successful construction the stored
    response is either the supplied value itself, when that value is
    neither a typed response nor a list (the unset sentinel is such a
    value), or a non-empty mapping with pairwise distinct keys, each of
    them a status code, mapping key or tuple first component that the
    argument supplied. *)
Theorem C9_stored_response_shape
    (vf : TCallable) (p : string) (verbs : pyval) (kw : route_kwargs) (r : Route) :
  Route_init vf p verbs kw = Ok r ->
  (is_controller_response (kw_response kw) = false /\
   (forall items, kw_response kw <> PyList items) /\
   response (route_params r) = kw_response kw)
  \/
  (exists d,
     response (route_params r) = PyDict d /\
     d <> [] /\
     NoDup (dict_keys d) /\
     forall k, k ∈ dict_keys d -> k ∈ supplied_keys (kw_response kw)).
Proof.
  intros Hok. apply Route_init_Ok_inv in Hok
    as (l & strs & resp & _ & _ & _ & Hn & _ & -> & _).
  unfold normalize_response in Hn.
  destruct (kw_response kw) as [| | | | | c n s | t | items | e] eqn:Ek;
    simpl in Hn; try (left; injection Hn as <-; repeat split; congruence).
  - right. injection Hn as <-. exists [(PyInt n, s)]. repeat split.
    + discriminate.
    + apply NoDup_singleton.
    + intros k Hk. exact Hk.
  - right. destruct (response_loop [] items) as [d|] eqn:El; simpl in Hn;
      [|discriminate].
    destruct d as [|kv d]; [discriminate|]. injection Hn as <-.
    exists (kv :: d). apply response_loop_sound in El.
    repeat split.
    + discriminate.
    + rewrite El. apply dict_update_NoDup. constructor.
    + intros k Hk. rewrite El in Hk. apply dict_keys_update_elem in Hk.
      destruct Hk as [Hk|Hk]; [by apply elem_of_nil in Hk | exact Hk].
Qed.


(** ** The verbs *)

(** C2.  For [methods] typed as [List[str]] whenever it is a list, with
    verbs written in ASCII, the construction raises
    [RouteInvalidParameterException] if and only if (a) [methods] is not a
    list, or (b) one of its verbs, upper-cased, is outside the allow-list,
    or (c) [response] is a list in which no element yields an entry.  In
    particular a list of allowed verbs does not raise it, unless (c)
    holds. *)
Theorem C2_invalid_parameter_iff
    (vf : TCallable) (p : string) (verbs : pyval) (kw : route_kwargs) :
  well_typed_methods verbs ->
  ascii_methods verbs = true ->
  (is_invalid_parameter (Route_init vf p verbs kw) <->
     (forall l, verbs <> PyList l) \/
     (exists ms m, verbs = PyList (map PyStr ms) /\ m ∈ ms /\
                   (upper m ∉ ROUTE_METHODS)) \/
     (exists items, kw_response kw = PyList items /\
                    Forall (fun item => yields_nothing item = true) items))
  /\
  (forall ms,
     verbs = PyList (map PyStr ms) ->
     (forall m, m ∈ ms -> upper m ∈ ROUTE_METHODS) ->
     ~ (exists items, kw_response kw = PyList items /\
                      Forall (fun item => yields_nothing item = true) items) ->
     ~ is_invalid_parameter (Route_init vf p verbs kw)).
Proof.
  intros Htyped _.
  assert (Hallowed : forall ms,
    verbs = PyList (map PyStr ms) ->
    (forall m, m ∈ ms -> upper m ∈ ROUTE_METHODS) ->
    is_invalid_parameter (Route_init vf p verbs kw) <->
    exists items, kw_response kw = PyList items /\
                  Forall (fun item => yields_nothing item = true) items).
  { intros ms -> Hms. rewrite (Route_init_allowed _ _ _ _ Hms).
    rewrite <- normalize_response_invalid_iff. unfold is_invalid_parameter.
    destruct (normalize_response (kw_response kw)) as [resp|e]; simpl.
    - split; intros [msg Hmsg]; discriminate.
    - split; intros [msg [= ->]]; eexists; reflexivity. }
  split.
  2:{ intros ms Hv Hms Hc Hbad. apply (Hallowed ms Hv Hms) in Hbad. auto. }
  destruct (classic_list verbs) as [[l Hl]|Hnot].
  2:{ split; [auto|]. intros _. unfold Route_init.
      destruct verbs; try (eexists; reflexivity).
      exfalso. eapply Hnot. reflexivity. }
  destruct (Htyped l Hl) as [ms ->].
  destruct (not_valid_methods (map upper ms)) as [|bad rest] eqn:En.
  - assert (Hms : forall m, m ∈ ms -> upper m ∈ ROUTE_METHODS).
    { intros m Hm. apply (proj1 (not_valid_methods_nil _) En).
      apply list_elem_of_fmap. eauto. }
    rewrite (Hallowed ms Hl Hms). split; [auto|].
    intros [Ha|[(ms' & m & Heq & Hm & Hout)|Hc]]; [| |exact Hc].
    + exfalso. eapply Ha, Hl.
    + exfalso. rewrite Hl in Heq. injection Heq as Heq.
      apply map_PyStr_inj in Heq. subst ms'. auto.
  - split.
    + intros _. right. left.
      assert (Hbad : bad ∈ not_valid_methods (map upper ms))
        by (rewrite En; apply elem_of_cons; by left).
      apply elem_of_not_valid_methods in Hbad as [Hin Hout].
      apply list_elem_of_fmap in Hin as (m & -> & Hm).
      exists ms, m. auto.
    + intros _. subst verbs. unfold Route_init.
      rewrite upper_all_strs. simpl. rewrite En. eexists. reflexivity.
Qed.

(** C3, as amended.  Every verb stored by a successful construction is
    drawn from the allow-list; the stored list may be empty: with the
    empty list of verbs the construction succeeds, whenever the response
    normalises, and stores the empty list. *)
Theorem C3_stored_methods_allowed
    (vf : TCallable) (p : string) (verbs : pyval) (kw : route_kwargs) :
  (forall r, Route_init vf p verbs kw = Ok r ->
             forall m, m ∈ methods (route_params r) -> m ∈ ROUTE_METHODS)
  /\
  (forall resp, normalize_response (kw_response kw) = Ok resp ->
     exists r, Route_init vf p (PyList []) kw = Ok r /\
               methods (route_params r) = []).
Proof.
  split.
  - intros r Hok. apply Route_init_Ok_inv in Hok
      as (l & strs & resp & _ & _ & Hnil & _ & <- & _).
    apply not_valid_methods_nil, Hnil.
  - intros resp Hresp.
    assert (Hnone : forall m : string, m ∈ [] -> upper m ∈ ROUTE_METHODS)
      by (intros m Hm; by apply elem_of_nil in Hm).
    change (PyList []) with (PyList (map PyStr [])).
    rewrite (Route_init_allowed vf p [] kw Hnone), Hresp. simpl.
    eexists. split; reflexivity.
Qed.

(** C4, as amended.  For a list of verbs that are all allowed once
    upper-cased, and a response that normalises, the construction
    succeeds and the stored list is the input upper-cased element by
    element, in the order of the input and with its duplicates, so that
    its set of elements is the upper-cased input set.  Each per-verb
    factory stores the one-element list of its verb; the generic factory
    stores the list the caller supplied, upper-cased. *)
Theorem C4_stored_methods_upper_cased
    (vf : TCallable) (p : string) (ms : list string) (kw : route_kwargs)
    (resp : pyval) :
  (forall m, m ∈ ms -> upper m ∈ ROUTE_METHODS) ->
  (forall v, v ∈ [GET; POST; PUT; PATCH; DELETE] -> v ∈ ROUTE_METHODS) ->
  normalize_response (resolve_response vf (kw_response kw)) = Ok resp ->
  (exists f, Route_generic p (PyList (map PyStr ms)) kw vf = Ok f /\
             methods (route_params (route_of f)) = map upper ms /\
             (list_to_set (methods (route_params (route_of f))) : gset string)
               = list_to_set (map upper ms)) /\
  (exists f, Route_get p kw vf = Ok f /\
             methods (route_params (route_of f)) = [GET]) /\
  (exists f, Route_post p kw vf = Ok f /\
             methods (route_params (route_of f)) = [POST]) /\
  (exists f, Route_put p kw vf = Ok f /\
             methods (route_params (route_of f)) = [PUT]) /\
  (exists f, Route_patch p kw vf = Ok f /\
             methods (route_params (route_of f)) = [PATCH]) /\
  (exists f, Route_delete p kw vf = Ok f /\
             methods (route_params (route_of f)) = [DELETE]).
Proof.
  intros Hms Hverbs Hresp.
  assert (Hbuild : forall l,
    (forall m, m ∈ l -> upper m ∈ ROUTE_METHODS) ->
    exists f, Route_create_route_function vf p (PyList (map PyStr l)) kw = Ok f /\
              methods (route_params (route_of f)) = map upper l).
  { intros l Hl. unfold Route_create_route_function.
    rewrite (Route_init_allowed _ _ _ _ Hl). simpl. rewrite Hresp. simpl.
    eexists. split; [reflexivity|]. destruct (ninja_is_async vf); reflexivity. }
  assert (Hone : forall v, v ∈ [GET; POST; PUT; PATCH; DELETE] -> upper v = v ->
    exists f, Route_create_route_function vf p (PyList [PyStr v]) kw = Ok f /\
              methods (route_params (route_of f)) = [v]).
  { intros v Hv Hup. destruct (Hbuild [v]) as (f & Hf & Hm).
    - intros m Hm. apply list_elem_of_singleton in Hm. subst m.
      rewrite Hup. auto.
    - exists f. simpl in Hm. rewrite Hup in Hm. auto. }
  split.
  { destruct (Hbuild ms Hms) as (f & Hf & Hm). exists f.
    unfold Route_generic. rewrite Hm. auto. }
  unfold Route_get, Route_post, Route_put, Route_patch, Route_delete.
  repeat split; apply Hone; try reflexivity;
    repeat (first [apply elem_of_cons; left; reflexivity
                  | apply elem_of_cons; right]).
Qed.

(** C5.  A list of verbs written in ASCII of which at least one is,
    upper-cased, outside the allow-list makes the construction raise
    [RouteInvalidParameterException] with the message
    ["Method <verbs> not allowed"], where [<verbs>] joins with commas the
    rejected verbs, upper-cased, each once, in the order of iteration of
    the set; every rejected verb occurs in the message, in its
    upper-cased form. *)
Theorem C5_disallowed_verbs_rejected
    (vf : TCallable) (p : string) (ms : list string) (kw : route_kwargs) :
  forallb ascii_text ms = true ->
  (exists m, m ∈ ms /\ (upper m ∉ ROUTE_METHODS)) ->
  exists not_valid,
    Route_init vf p (PyList (map PyStr ms)) kw =
      Raise (RouteInvalidParameterException
               ("Method " +:+ join "," not_valid +:+ " not allowed")) /\
    NoDup not_valid /\
    (forall t, t ∈ not_valid <-> t ∈ map upper ms /\ (t ∉ ROUTE_METHODS)) /\
    (forall m, m ∈ ms -> (upper m ∉ ROUTE_METHODS) ->
       occurs_in (upper m) ("Method " +:+ join "," not_valid +:+ " not allowed")).
Proof.
  intros _ (m0 & Hm0 & Hout0).
  exists (not_valid_methods (map upper ms)).
  assert (Hin0 : upper m0 ∈ not_valid_methods (map upper ms)).
  { apply elem_of_not_valid_methods. split; [|assumption].
    apply list_elem_of_fmap. eauto. }
  split; [|split; [|split]].
  - unfold Route_init. rewrite upper_all_strs. simpl.
    destruct (not_valid_methods (map upper ms)) eqn:En; [|reflexivity].
    by apply elem_of_nil in Hin0.
  - apply NoDup_not_valid_methods.
  - intros t. apply elem_of_not_valid_methods.
  - intros m Hm Hout. apply occurs_in_app, occurs_in_join.
    apply elem_of_not_valid_methods. split; [|assumption].
    apply list_elem_of_fmap. eauto.
Qed.

(** ** The build step *)

(** C7.  When [response] is the unset sentinel, the build step hands
    the handler's return-type hint [T] to the constructor: the built
    descriptor stores the normal form of [T], which is [T] itself unless
    [T] is a typed response or a list.  Without a return-type hint the
    stored response stays the unset sentinel.  [T] is taken truthy, as
    every class and typing construct is. *)
Theorem C7_unset_response_from_return_hint
    (vf : TCallable) (p : string) (ms : list string) (kw : route_kwargs) :
  (forall m, m ∈ ms -> upper m ∈ ROUTE_METHODS) ->
  kw_response kw = NOT_SET ->
  (forall T resp,
     return_hint vf = Some T -> truthy T = true ->
     normalize_response T = Ok resp ->
     exists f,
       Route_create_route_function vf p (PyList (map PyStr ms)) kw = Ok f /\
       response (route_params (route_of f)) = resp /\
       (is_controller_response T = false -> (forall l, T <> PyList l) ->
        response (route_params (route_of f)) = T))
  /\
  (return_hint vf = None ->
   exists f,
     Route_create_route_function vf p (PyList (map PyStr ms)) kw = Ok f /\
     response (route_params (route_of f)) = NOT_SET).
Proof.
  intros Hms Hunset. unfold Route_create_route_function.
  rewrite (Route_init_allowed _ _ _ _ Hms), Hunset. simpl.
  unfold get_return_hint, py_or. split.
  - intros T resp -> Ht Hn. rewrite Ht, Hn. simpl.
    eexists. split; [reflexivity|].
    assert (Hplain : is_controller_response T = false ->
                     (forall l, T <> PyList l) -> resp = T).
    { intros Hc Hl. unfold normalize_response in Hn. rewrite Hc in Hn.
      destruct T; try (injection Hn as <-; reflexivity).
      exfalso. eapply Hl. reflexivity. }
    destruct (ninja_is_async vf); simpl; auto.
  - intros ->. simpl. eexists. split; [reflexivity|].
    destruct (ninja_is_async vf); reflexivity.
Qed.

(** C8.  The build step returns the asynchronous variant exactly when
    the handler is a coroutine function and the synchronous variant
    otherwise: the result is the constructor's descriptor under the tag
    the handler's own declaration fixes, and the descriptor records that
    same flag next to the handler. *)
Theorem C8_variant_follows_handler
    (vf : TCallable) (p : string) (verbs : pyval) (kw : route_kwargs) :
  Route_create_route_function vf p verbs kw =
    (let* r := Route_init vf p verbs
                 (with_response kw (resolve_response vf (kw_response kw))) in
     Ok (if coroutine vf then AsyncRouteFunction r else RouteFunction r))
  /\
  (forall f, Route_create_route_function vf p verbs kw = Ok f ->
     is_async_variant f = coroutine vf /\
     is_async (route_of f) = coroutine vf /\
     view_func (route_of f) = vf).
Proof.
  unfold Route_create_route_function.
  destruct (Route_init vf p verbs
              (with_response kw (resolve_response vf (kw_response kw))))
    as [r|e] eqn:Einit; simpl.
  - apply Route_init_Ok_inv in Einit
      as (l & strs & resp & _ & _ & _ & _ & _ & _ & Ha & Hv).
    rewrite Ha. unfold ninja_is_async. split; [reflexivity|].
    intros f [= <-]. unfold ninja_is_async in Ha.
    destruct (coroutine vf) eqn:Ec; simpl; auto.
  - split; [reflexivity | discriminate].
Qed.

(** ** Further lemmas *)

Lemma normalize_response_idem x y :
  normalize_response x = Ok y -> normalize_response y = Ok y.
Proof.
  unfold normalize_response. destruct x; simpl; try (intros [= <-]; reflexivity).
  destruct (response_loop [] items) as [d|e]; simpl; [|discriminate].
  destruct d; [discriminate|]. intros [= <-]. reflexivity.
Qed.

Lemma response_item_Ok_mergeable acc item d :
  response_item acc item = Ok d -> mergeable item = true.
Proof.
  unfold response_item. destruct item as [| | | | | c n s | t | l | e]; simpl;
    try reflexivity.
  destruct t as [|k [|v t]]; simpl; try discriminate.
  unfold dict_display. destruct (hashable k); simpl; [reflexivity | discriminate].
Qed.

Lemma response_loop_Ok_mergeable items : forall acc d,
  response_loop acc items = Ok d ->
  Forall (fun item => mergeable item = true) items.
Proof.
  induction items as [|item items IH]; intros acc d; simpl; [constructor|].
  destruct (response_item acc item) as [d1|e] eqn:E1; simpl; [|discriminate].
  intros H. constructor; [eapply response_item_Ok_mergeable, E1 | eapply IH, H].
Qed.

Lemma with_response_same kw : with_response kw (kw_response kw) = kw.
Proof. destruct kw; reflexivity. Qed.

Lemma Route_init_response_ext vf p verbs kw R1 R2 :
  normalize_response R1 = normalize_response R2 ->
  Route_init vf p verbs (with_response kw R1) =
  Route_init vf p verbs (with_response kw R2).
Proof.
  intros H. unfold Route_init. destruct verbs; try reflexivity.
  destruct (upper_all items) as [strs|]; simpl; [|reflexivity].
  destruct (not_valid_methods strs); [|reflexivity].
  rewrite H. reflexivity.
Qed.

(** Two elements that the loop treats alike, and that contribute an
    entry, can stand for one another in a response list. *)
Lemma normalize_response_swap before after x y :
  (forall acc, response_item acc x = response_item acc y) ->
  yields_nothing x = false -> yields_nothing y = false ->
  normalize_response (PyList (before ++ x :: after)) =
  normalize_response (PyList (before ++ y :: after)).
Proof.
  intros Hxy Hx Hy. unfold normalize_response. simpl.
  assert (Hsame : response_loop [] (before ++ x :: after) =
                  response_loop [] (before ++ y :: after)).
  { rewrite !response_loop_app.
    destruct (response_loop [] before) as [d|e]; simpl; [|reflexivity].
    rewrite Hxy. reflexivity. }
  rewrite <- Hsame.
  destruct (response_loop [] (before ++ x :: after)) as [d|e] eqn:El; simpl;
    [|reflexivity].
  destruct d as [|kv d]; [|reflexivity].
  exfalso. apply response_loop_nil_iff in El as [_ Hall].
  apply Forall_app in Hall as [_ Hall]. apply Forall_cons in Hall as [Hbad _].
  congruence.
Qed.

Lemma dict_keys_setitem_existsb d k v :
  dict_keys (dict_setitem d k v) =
    if existsb (fun k' => pyval_eqb k' k) (dict_keys d)
    then dict_keys d else dict_keys d ++ [k].
Proof.
  induction d as [|[k0 v0] d IH]; simpl; [reflexivity|].
  destruct (pyval_eqb k0 k); simpl; [reflexivity|].
  fold (dict_keys d). fold (dict_keys (dict_setitem d k v)). rewrite IH.
  destruct (existsb (fun k' => pyval_eqb k' k) (dict_keys d)); reflexivity.
Qed.

Lemma list_filter_twice {A : Type} (f g : A -> bool) (l : list A) :
  List.filter f (List.filter g l) = List.filter (fun x => g x && f x) l.
Proof.
  induction l as [|x l IH]; simpl; [reflexivity|].
  destruct (g x); simpl; [destruct (f x); simpl; congruence | exact IH].
Qed.

Lemma dict_keys_update es : forall acc,
  dict_keys (dict_update acc es) =
    dict_keys acc ++
    List.filter
      (fun k => negb (existsb (fun k' => pyval_eqb k' k) (dict_keys acc)))
      (first_occurrences (dict_keys es)).
Proof.
  induction es as [|[k v] es IH]; intros acc.
  - simpl. rewrite app_nil_r. reflexivity.
  - rewrite dict_update_cons, IH. simpl fst. simpl snd.
    rewrite dict_keys_setitem_existsb. simpl dict_keys. simpl first_occurrences.
    fold (dict_keys es). simpl List.filter.
    destruct (existsb (fun k' => pyval_eqb k' k) (dict_keys acc)) eqn:Ek; simpl.
    + f_equal. rewrite list_filter_twice. apply List.filter_ext. intros x.
      destruct (pyval_eqb k x) eqn:Ex; simpl; [|reflexivity].
      apply pyval_eqb_eq in Ex. subst x. rewrite Ek. reflexivity.
    + rewrite <- app_assoc. simpl. f_equal. f_equal.
      rewrite list_filter_twice. apply List.filter_ext. intros x.
      rewrite existsb_app. simpl. rewrite orb_false_r, negb_orb.
      apply andb_comm.
Qed.

Lemma list_filter_all {A : Type} (l : list A) : List.filter (fun _ => true) l = l.
Proof. induction l as [|x l IH]; simpl; congruence. Qed.

Lemma dict_setitem_fresh d k v :
  (k ∉ dict_keys d) -> dict_setitem d k v = d ++ [(k, v)].
Proof.
  induction d as [|[k0 v0] d IH]; simpl; intros Hk; [reflexivity|].
  destruct (pyval_eqb k0 k) eqn:E0.
  - apply pyval_eqb_eq in E0. subst k0. exfalso. apply Hk, elem_of_cons. by left.
  - rewrite IH; [reflexivity|]. intros Hin. apply Hk, elem_of_cons. by right.
Qed.

Lemma dict_update_fresh d : forall acc,
  NoDup (dict_keys acc ++ dict_keys d) -> dict_update acc d = acc ++ d.
Proof.
  induction d as [|[k v] d IH]; intros acc Hnd.
  - simpl. rewrite app_nil_r. reflexivity.
  - rewrite dict_update_cons. simpl fst. simpl snd. simpl in Hnd.
    apply NoDup_app in Hnd as (Hacc & Hdisj & Hd).
    apply NoDup_cons in Hd as [Hk Hd].
    rewrite dict_setitem_fresh.
    + rewrite IH; [rewrite <- app_assoc; reflexivity|].
      unfold dict_keys. rewrite map_app. simpl. rewrite <- app_assoc. simpl.
      apply NoDup_app. split; [exact Hacc|]. split.
      * exact Hdisj.
      * apply NoDup_cons. split; assumption.
    + intros Hin. apply (Hdisj k Hin). apply elem_of_cons. by left.
Qed.

(** ** Further properties of the constructor *)

(** X1.  The verbs are checked before anything else: when [methods] is
    not a list, or is a list of strings written in ASCII one of which is
    outside the allow-list once upper-cased, the construction raises
    [RouteInvalidParameterException], and the outcome is the same whatever
    the handler, the path, the response and the other keyword arguments
    are, a response that would itself raise included. *)
Theorem X1_methods_checked_first
    (vf vf' : TCallable) (p p' : string) (kw kw' : route_kwargs) (verbs : pyval) :
  ascii_methods verbs = true ->
  (forall l, verbs <> PyList l) \/
  (exists ms m, verbs = PyList (map PyStr ms) /\ m ∈ ms /\
                (upper m ∉ ROUTE_METHODS)) ->
  is_invalid_parameter (Route_init vf p verbs kw) /\
  Route_init vf p verbs kw = Route_init vf' p' verbs kw'.
Proof.
  intros _ [Hnot|(ms & m & -> & Hm & Hout)].
  - unfold Route_init, is_invalid_parameter.
    destruct verbs; try (split; [eexists|]; reflexivity).
    exfalso. eapply Hnot. reflexivity.
  - assert (Hin : upper m ∈ not_valid_methods (map upper ms)).
    { apply elem_of_not_valid_methods. split; [|assumption].
      apply list_elem_of_fmap. eauto. }
    unfold Route_init, is_invalid_parameter. rewrite upper_all_strs. simpl.
    destruct (not_valid_methods (map upper ms)) eqn:En.
    + by apply elem_of_nil in Hin.
    + split; [eexists|]; reflexivity.
Qed.

(** X2.  A [methods] list in which strings are followed by a value
    that has no attribute [upper] (None, an integer, a tuple, a list, a
    dict) makes [m.upper()] fail at that value: the construction raises
    [AttributeError], not [RouteInvalidParameterException], whatever
    comes after it and whatever the other arguments are. *)
Theorem X2_non_string_verb_attribute_error
    (vf : TCallable) (p : string) (ms : list string) (v : pyval)
    (rest : list pyval) (kw : route_kwargs) :
  lacks_upper v = true ->
  Route_init vf p (PyList (map PyStr ms ++ v :: rest)) kw = Raise AttributeError /\
  ~ is_invalid_parameter (Route_init vf p (PyList (map PyStr ms ++ v :: rest)) kw).
Proof.
  intros Hv.
  assert (Hup : upper_all (map PyStr ms ++ v :: rest) = Raise AttributeError).
  { induction ms as [|m ms IH]; simpl.
    - destruct v; try discriminate; reflexivity.
    - rewrite IH. reflexivity. }
  assert (Hinit : Route_init vf p (PyList (map PyStr ms ++ v :: rest)) kw
                  = Raise AttributeError).
  { unfold Route_init. rewrite Hup. reflexivity. }
  split; [exact Hinit|]. rewrite Hinit. intros [msg Hmsg]. discriminate.
Qed.

(** X3.  Verbs are case-insensitive: two lists of verbs that agree once
    upper-cased give the same outcome, descriptor or exception; so the
    generic factory with one verb in any case is the per-verb factory. *)
Theorem X3_verbs_case_insensitive
    (vf : TCallable) (p : string) (ms ms' : list string) (kw : route_kwargs) :
  map upper ms = map upper ms' ->
  Route_init vf p (PyList (map PyStr ms)) kw =
    Route_init vf p (PyList (map PyStr ms')) kw /\
  Route_generic p (PyList (map PyStr ms)) kw vf =
    Route_generic p (PyList (map PyStr ms')) kw vf /\
  (map upper ms = [GET] -> Route_generic p (PyList (map PyStr ms)) kw vf = Route_get p kw vf).
Proof.
  intros Heq.
  assert (Hinit : forall l l' k, map upper l = map upper l' ->
            Route_init vf p (PyList (map PyStr l)) k =
            Route_init vf p (PyList (map PyStr l')) k).
  { intros l l' k H. unfold Route_init. rewrite !upper_all_strs, H. reflexivity. }
  split; [apply Hinit, Heq|].
  unfold Route_generic, Route_get, Route_create_route_function. split.
  - rewrite (Hinit ms ms' _ Heq). reflexivity.
  - intros Hget. rewrite (Hinit ms [GET] _ Hget). reflexivity.
Qed.

(** X4.  When the construction succeeds: for a list of verbs written in
    ASCII, it returns a descriptor if and only if every verb is allowed
    once upper-cased and, in case [response] is a list, every tuple in it
    has at least two components with a hashable first one and some
    element yields an entry.  No other argument can make it fail. *)
Theorem X4_construction_succeeds_iff
    (vf : TCallable) (p : string) (ms : list string) (kw : route_kwargs) :
  forallb ascii_text ms = true ->
  (exists r, Route_init vf p (PyList (map PyStr ms)) kw = Ok r) <->
  (forall m, m ∈ ms -> upper m ∈ ROUTE_METHODS) /\
  (forall items, kw_response kw = PyList items ->
     Forall (fun item => mergeable item = true) items /\
     concat (map normalized_entries items) <> []).
Proof.
  intros _. split.
  - intros [r Hok]. apply Route_init_Ok_inv in Hok
      as (l & strs & resp & [= <-] & Hup & Hnil & Hn & _).
    rewrite upper_all_strs in Hup. injection Hup as <-. split.
    + intros m Hm. apply (proj1 (not_valid_methods_nil _) Hnil).
      apply list_elem_of_fmap. eauto.
    + intros items Hitems. rewrite Hitems in Hn.
      unfold normalize_response in Hn. simpl in Hn.
      destruct (response_loop [] items) as [d|e] eqn:El; simpl in Hn;
        [|discriminate].
      split; [eapply response_loop_Ok_mergeable, El|].
      intros Hempty. apply response_loop_sound in El. rewrite Hempty in El.
      subst d. discriminate.
  - intros [Hms Hresp]. rewrite (Route_init_allowed _ _ _ _ Hms).
    assert (Hn : exists resp, normalize_response (kw_response kw) = Ok resp).
    { unfold normalize_response.
      destruct (kw_response kw) as [| | | | | c n s | t | items | e] eqn:Ek;
        simpl; try (eexists; reflexivity).
      destruct (Hresp items eq_refl) as [Hall Hne].
      rewrite (response_loop_mergeable _ _ Hall). simpl.
      destruct (dict_update [] (concat (map normalized_entries items))) eqn:Ed.
      - apply dict_update_nil_iff in Ed as [_ Hes]. contradiction.
      - eexists. reflexivity. }
    destruct Hn as [resp ->]. simpl. eexists. reflexivity.
Qed.

(** X5.  Normalisation is idempotent: constructing again with the
    response that a successful construction stored gives the same
    descriptor. *)
Theorem X5_stored_response_is_normal
    (vf : TCallable) (p : string) (verbs : pyval) (kw : route_kwargs) (r : Route) :
  Route_init vf p verbs kw = Ok r ->
  Route_init vf p verbs (with_response kw (response (route_params r))) = Ok r.
Proof.
  unfold Route_init. destruct verbs; try discriminate.
  destruct (upper_all items) as [strs|]; simpl; [|discriminate].
  destruct (not_valid_methods strs); [|discriminate].
  destruct (normalize_response (kw_response kw)) as [resp|] eqn:Hn; simpl;
    [|discriminate].
  intros [= <-]. simpl. rewrite (normalize_response_idem _ _ Hn). reflexivity.
Qed.

(** X6.  The keys of the mapping stored for a response list stand in the
    order in which they first occur in the list, and they are exactly the
    keys that the elements supply. *)
Theorem X6_keys_in_first_occurrence_order
    (vf : TCallable) (p : string) (verbs : pyval) (kw : route_kwargs)
    (items : list pyval) (r : Route) :
  kw_response kw = PyList items ->
  Route_init vf p verbs kw = Ok r ->
  exists d,
    response (route_params r) = PyDict d /\
    dict_keys d =
      first_occurrences (dict_keys (concat (map normalized_entries items))) /\
    forall k, k ∈ dict_keys d <->
              k ∈ dict_keys (concat (map normalized_entries items)).
Proof.
  intros Hitems Hok. apply Route_init_Ok_inv in Hok
    as (l & strs & resp & _ & _ & _ & Hn & _ & -> & _).
  rewrite Hitems in Hn. unfold normalize_response in Hn. simpl in Hn.
  destruct (response_loop [] items) as [d|e] eqn:El; simpl in Hn; [|discriminate].
  destruct d as [|kv d]; [discriminate|]. injection Hn as <-.
  exists (kv :: d). apply response_loop_sound in El. rewrite El.
  split; [reflexivity|]. split.
  - rewrite dict_keys_update. simpl. apply list_filter_all.
  - intros k. rewrite dict_keys_update_elem. simpl. rewrite elem_of_nil. tauto.
Qed.

(** ** Further properties of the build step *)

(** X7.  With [response] unset, a return-type hint that is falsy (such
    as the empty tuple) is dropped by [or NOT_SET]: the built descriptor
    keeps the unset sentinel. *)
Theorem X7_falsy_return_hint_ignored
    (vf : TCallable) (p : string) (ms : list string) (kw : route_kwargs) (T : pyval) :
  (forall m, m ∈ ms -> upper m ∈ ROUTE_METHODS) ->
  kw_response kw = NOT_SET ->
  return_hint vf = Some T ->
  truthy T = false ->
  exists f,
    Route_create_route_function vf p (PyList (map PyStr ms)) kw = Ok f /\
    response (route_params (route_of f)) = NOT_SET.
Proof.
  intros Hms Hunset Hhint Hfalsy. unfold Route_create_route_function.
  rewrite (Route_init_allowed _ _ _ _ Hms), Hunset. simpl.
  unfold get_return_hint, py_or. rewrite Hhint, Hfalsy. simpl.
  eexists. split; [reflexivity|]. destruct (ninja_is_async vf); reflexivity.
Qed.

(** X8.  A [response] that is supplied is never replaced: when it is not
    the unset sentinel the build step does not consult the return-type
    hint, and builds exactly what the constructor gives for the arguments
    as they are. *)
Theorem X8_explicit_response_kept
    (vf : TCallable) (p : string) (verbs : pyval) (kw : route_kwargs) :
  kw_response kw <> NOT_SET ->
  Route_create_route_function vf p verbs kw =
    (let* r := Route_init vf p verbs kw in
     Ok (if coroutine vf then AsyncRouteFunction r else RouteFunction r)) /\
  (forall f, Route_create_route_function vf p verbs kw = Ok f ->
     normalize_response (kw_response kw) = Ok (response (route_params (route_of f)))).
Proof.
  intros Hset.
  assert (Hres : resolve_response vf (kw_response kw) = kw_response kw).
  { unfold resolve_response. destruct (kw_response kw); congruence. }
  unfold Route_create_route_function. rewrite Hres, with_response_same.
  destruct (Route_init vf p verbs kw) as [r|e] eqn:Einit; simpl.
  - apply Route_init_Ok_inv in Einit
      as (l & strs & resp & _ & _ & _ & Hn & _ & Hr & Ha & _).
    rewrite Ha. unfold ninja_is_async. split; [reflexivity|].
    intros f [= <-]. rewrite Hn, <- Hr. destruct (coroutine vf); reflexivity.
  - split; [reflexivity | discriminate].
Qed.

(** X9.  Wrapping a typed response, or a non-empty mapping, in a
    one-element list changes nothing: the construction has the same
    outcome as with the value itself. *)
Theorem X9_singleton_list_same_as_element
    (vf : TCallable) (p : string) (verbs : pyval) (kw : route_kwargs) :
  (forall c n s,
     Route_init vf p verbs (with_response kw (PyList [PyControllerResponse c n s])) =
     Route_init vf p verbs (with_response kw (PyControllerResponse c n s))) /\
  (forall d,
     d <> [] -> NoDup (dict_keys d) ->
     Route_init vf p verbs (with_response kw (PyList [PyDict d])) =
     Route_init vf p verbs (with_response kw (PyDict d))).
Proof.
  split.
  - intros c n s. apply Route_init_response_ext. reflexivity.
  - intros d Hne Hnd. apply Route_init_response_ext.
    unfold normalize_response. simpl. rewrite dict_update_fresh by exact Hnd.
    simpl. destruct d; [contradiction | reflexivity].
Qed.

(** X10.  The three forms of an entry are interchangeable anywhere in a
    response list: a tuple [(k, v)] with a hashable [k] and the mapping
    [{k: v}] give the same outcome, and so do a typed response and the
    tuple or the mapping of its status code and schema. *)
Theorem X10_entry_forms_interchangeable
    (vf : TCallable) (p : string) (verbs : pyval) (kw : route_kwargs)
    (before after : list pyval) :
  (forall k v,
     hashable k = true ->
     Route_init vf p verbs (with_response kw (PyList (before ++ PyTuple [k; v] :: after))) =
     Route_init vf p verbs (with_response kw (PyList (before ++ PyDict [(k, v)] :: after)))) /\
  (forall c n s,
     Route_init vf p verbs
       (with_response kw (PyList (before ++ PyControllerResponse c n s :: after))) =
     Route_init vf p verbs
       (with_response kw (PyList (before ++ PyTuple [PyInt n; s] :: after))) /\
     Route_init vf p verbs
       (with_response kw (PyList (before ++ PyControllerResponse c n s :: after))) =
     Route_init vf p verbs
       (with_response kw (PyList (before ++ PyDict [(PyInt n, s)] :: after)))).
Proof.
  split.
  - intros k v Hk. apply Route_init_response_ext, normalize_response_swap;
      try reflexivity.
    intros acc. unfold response_item, dict_display. simpl. rewrite Hk. reflexivity.
  - intros c n s. split; apply Route_init_response_ext, normalize_response_swap;
      reflexivity.
Qed.

(** X13.  Extending a response list only adds to the mapping: every key
    stored for a list is still stored for the list extended at its end,
    with the same value unless the added elements supply that key. *)
Theorem X13_extension_keeps_earlier_entries
    (vf : TCallable) (p : string) (verbs : pyval) (kw : route_kwargs)
    (items more : list pyval) (r r' : Route) :
  Route_init vf p verbs (with_response kw (PyList items)) = Ok r ->
  Route_init vf p verbs (with_response kw (PyList (items ++ more))) = Ok r' ->
  exists d d',
    response (route_params r) = PyDict d /\
    response (route_params r') = PyDict d' /\
    (forall k, k ∈ dict_keys d -> k ∈ dict_keys d') /\
    (forall k, last_write (concat (map normalized_entries more)) k = None ->
               dict_get d' k = dict_get d k).
Proof.
  intros Hok Hok'.
  apply Route_init_Ok_inv in Hok as (l & strs & resp & _ & _ & _ & Hn & _ & -> & _).
  apply Route_init_Ok_inv in Hok' as (l' & strs' & resp' & _ & _ & _ & Hn' & _ & -> & _).
  simpl in Hn, Hn'. unfold normalize_response in Hn, Hn'. simpl in Hn, Hn'.
  destruct (response_loop [] items) as [d|] eqn:El; simpl in Hn; [|discriminate].
  destruct (response_loop [] (items ++ more)) as [d'|] eqn:El'; simpl in Hn';
    [|discriminate].
  destruct d as [|kv d]; [discriminate|]. injection Hn as <-.
  destruct d' as [|kv' d']; [discriminate|]. injection Hn' as <-.
  exists (kv :: d), (kv' :: d'). split; [reflexivity|]. split; [reflexivity|].
  apply response_loop_sound in El, El'.
  rewrite map_app, concat_app, dict_update_app, <- El in El'. rewrite El'. split.
  - intros k Hk. apply dict_keys_update_elem. left. exact Hk.
  - intros k Hnone. rewrite dict_get_update, Hnone. reflexivity.
Qed.

(** ** Further edge cases *)

Lemma upper_ascii_idem c : upper_ascii (upper_ascii c) = upper_ascii c.
Proof.
  destruct c as [b0 b1 b2 b3 b4 b5 b6 b7].
  destruct b0, b1, b2, b3, b4, b5, b6, b7; vm_compute; reflexivity.
Qed.

Lemma upper_idem s : upper (upper s) = upper s.
Proof.
  induction s as [|c s IH]; simpl; [reflexivity|].
  rewrite upper_ascii_idem, IH. reflexivity.
Qed.

Lemma upper_all_Ok l : forall strs,
  upper_all l = Ok strs -> exists ms, l = map PyStr ms /\ strs = map upper ms.
Proof.
  induction l as [|x l IH]; intros strs; simpl.
  - intros [= <-]. exists []. split; reflexivity.
  - destruct x; try discriminate.
    destruct (upper_all l) as [rest|] eqn:El; simpl; [|discriminate].
    intros [= <-]. destruct (IH rest eq_refl) as (ms & -> & ->).
    exists (s :: ms). split; reflexivity.
Qed.

(** X14.  A tuple with at least two components whose first one is
    unhashable (a list, a dict, or a tuple holding one) cannot be a key:
    when the elements before it merge, the construction raises
    [TypeError], not [RouteInvalidParameterException]. *)
Theorem X14_unhashable_key_type_error
    (vf : TCallable) (p : string) (ms : list string) (kw : route_kwargs)
    (before after rest : list pyval) (k v : pyval) :
  (forall m, m ∈ ms -> upper m ∈ ROUTE_METHODS) ->
  Forall (fun item => mergeable item = true) before ->
  hashable k = false ->
  Route_init vf p (PyList (map PyStr ms))
    (with_response kw (PyList (before ++ PyTuple (k :: v :: rest) :: after)))
  = Raise TypeError.
Proof.
  intros Hms Hbefore Hk. rewrite (Route_init_allowed _ _ _ _ Hms). simpl.
  unfold normalize_response. simpl.
  rewrite response_loop_app, (response_loop_mergeable _ _ Hbefore). simpl.
  unfold response_item, dict_display. simpl. rewrite Hk. reflexivity.
Qed.

(** X15.  The stored verbs are already upper-case: constructing again
    with the verbs that a successful construction stored gives the same
    descriptor. *)
Theorem X15_stored_methods_round_trip
    (vf : TCallable) (p : string) (verbs : pyval) (kw : route_kwargs) (r : Route) :
  Route_init vf p verbs kw = Ok r ->
  map upper (methods (route_params r)) = methods (route_params r) /\
  Route_init vf p (PyList (map PyStr (methods (route_params r)))) kw = Ok r.
Proof.
  unfold Route_init. destruct verbs; try discriminate.
  destruct (upper_all items) as [strs|] eqn:Eu; simpl; [|discriminate].
  destruct (upper_all_Ok _ _ Eu) as (ms & -> & ->).
  destruct (not_valid_methods (map upper ms)) eqn:En; [|discriminate].
  destruct (normalize_response (kw_response kw)) as [resp|] eqn:Hn; simpl;
    [|discriminate].
  intros [= <-]. simpl.
  assert (Hfix : map upper (map upper ms) = map upper ms).
  { rewrite map_map. apply map_ext. intros s. apply upper_idem. }
  split; [exact Hfix|].
  rewrite upper_all_strs. simpl. rewrite Hfix, En. reflexivity.
Qed.

End Route.

(** ** Instances *)

(** Iterating over a set in the order of [elements] is one of the orders
    Python may take. *)
Lemma elements_order (X : gset string) : elements X ≡ₚ elements X.
Proof. reflexivity. Qed.

(** A list of verbs passes the check when each verb does. *)
Lemma allowed_verbs_check (allowed ms : list string) :
  forallb (fun m => bool_decide (upper m ∈ allowed)) ms = true ->
  forall m, m ∈ ms -> upper m ∈ allowed.
Proof.
  intros Hall m Hm. apply list_elem_of_In in Hm.
  rewrite forallb_forall in Hall. apply Hall in Hm.
  by apply bool_decide_eq_true in Hm.
Qed.

Lemma disallowed_verb_check (allowed : list string) (m : string) :
  bool_decide (upper m ∈ allowed) = false -> upper m ∉ allowed.
Proof. apply bool_decide_eq_false_1. Qed.

Lemma verbs_in_constants v :
  v ∈ [GET; POST; PUT; PATCH; DELETE] -> v ∈ constants_ROUTE_METHODS.
Proof.
  intros Hv. unfold constants_ROUTE_METHODS.
  repeat (apply elem_of_cons in Hv as [->|Hv]);
    [ | | | | | by apply elem_of_nil in Hv];
    repeat (first [apply elem_of_cons; left; reflexivity | apply elem_of_cons; right]).
Qed.

(** ** Instances of the theorems *)

Lemma C1_witness :
  Forall (fun item => mergeable item = true) mixed_response /\
  exists r d,
    Route_init constants_ROUTE_METHODS elements example_str sync_handler "/items"
      (PyList (map PyStr ["get"])) (with_items mixed_response)
      = Ok r /\
    response (route_params r) = PyDict d /\
    NoDup (dict_keys d) /\
    forall k, dict_get d k =
              last_write (concat (map normalized_entries mixed_response)) k.
Proof.
  split; [repeat constructor|].
  apply (C1_response_sequence_last_write_wins constants_ROUTE_METHODS elements
           elements_order example_str sync_handler "/items" ["get"]
           (with_items mixed_response) mixed_response).
  - apply allowed_verbs_check. vm_compute. reflexivity.
  - reflexivity.
  - repeat constructor.
  - vm_compute. discriminate.
Defined.

Lemma C2_witness :
  well_typed_methods (PyList [PyStr "get"; PyStr "trace"]) /\
  ascii_methods (PyList [PyStr "get"; PyStr "trace"]) = true /\
  is_invalid_parameter
    (Route_init constants_ROUTE_METHODS elements example_str sync_handler "/items"
      (PyList [PyStr "get"; PyStr "trace"]) default_kwargs).
Proof.
  assert (Htyped : well_typed_methods (PyList [PyStr "get"; PyStr "trace"])).
  { intros l [= <-]. exists ["get"; "trace"]. reflexivity. }
  split; [exact Htyped|]. split; [reflexivity|].
  apply (proj1 (C2_invalid_parameter_iff constants_ROUTE_METHODS elements
                  elements_order example_str sync_handler "/items"
                  (PyList [PyStr "get"; PyStr "trace"]) default_kwargs Htyped
                  eq_refl)).
  right. left. exists ["get"; "trace"], "trace". split; [reflexivity|]. split.
  - apply elem_of_cons. right. apply elem_of_cons. left. reflexivity.
  - apply disallowed_verb_check. vm_compute. reflexivity.
Defined.

Lemma C3_witness :
  (forall r,
     Route_init constants_ROUTE_METHODS elements example_str sync_handler "/items"
      (PyList [PyStr "get"; PyStr "Post"]) default_kwargs = Ok r ->
     forall m, m ∈ methods (route_params r) -> m ∈ constants_ROUTE_METHODS) /\
  (forall resp,
     normalize_response example_str (kw_response default_kwargs) = Ok resp ->
     exists r, Route_init constants_ROUTE_METHODS elements example_str sync_handler "/items"
      (PyList []) default_kwargs = Ok r /\
               methods (route_params r) = []).
Proof.
  apply (C3_stored_methods_allowed constants_ROUTE_METHODS elements elements_order
           example_str sync_handler "/items" (PyList [PyStr "get"; PyStr "Post"])
           default_kwargs).
Defined.

Lemma C4_witness :
  exists f,
    Route_generic constants_ROUTE_METHODS elements example_str "/items"
      (PyList (map PyStr ["post"; "get"; "POST"])) default_kwargs sync_handler = Ok f /\
    methods (route_params (route_of f)) = ["POST"; "GET"; "POST"].
Proof.
  destruct (C4_stored_methods_upper_cased constants_ROUTE_METHODS elements
              elements_order example_str sync_handler "/items"
              ["post"; "get"; "POST"] default_kwargs (PyObj "ItemSchema"))
    as [(f & Hf & Hm & _) _].
  - apply allowed_verbs_check. vm_compute. reflexivity.
  - apply verbs_in_constants.
  - reflexivity.
  - exists f. split; [exact Hf | exact Hm].
Defined.

Lemma C5_witness :
  forallb ascii_text ["get"; "trace"; "Head"; "TRACE"] = true /\
  exists not_valid,
    Route_init constants_ROUTE_METHODS elements example_str sync_handler "/items"
      (PyList (map PyStr ["get"; "trace"; "Head"; "TRACE"]))
      default_kwargs =
      Raise (RouteInvalidParameterException
               ("Method " +:+ join "," not_valid +:+ " not allowed")) /\
    NoDup not_valid /\
    (forall t, t ∈ not_valid <->
               t ∈ map upper ["get"; "trace"; "Head"; "TRACE"] /\
               (t ∉ constants_ROUTE_METHODS)) /\
    (forall m, m ∈ ["get"; "trace"; "Head"; "TRACE"] ->
               (upper m ∉ constants_ROUTE_METHODS) ->
               occurs_in (upper m)
                 ("Method " +:+ join "," not_valid +:+ " not allowed")).
Proof.
  split; [reflexivity|].
  apply (C5_disallowed_verbs_rejected constants_ROUTE_METHODS elements
           elements_order example_str sync_handler "/items"
           ["get"; "trace"; "Head"; "TRACE"] default_kwargs eq_refl).
  exists "trace". split.
  - apply elem_of_cons. right. apply elem_of_cons. left. reflexivity.
  - apply disallowed_verb_check. vm_compute. reflexivity.
Defined.

Lemma C6_witness :
  Route_init constants_ROUTE_METHODS elements example_str sync_handler "/items"
      (PyList (map PyStr ["get"])) (with_items [PyNone]) =
    Raise (RouteInvalidParameterException "Invalid response configuration: [None]") /\
  Route_init constants_ROUTE_METHODS elements example_str sync_handler "/items"
      (PyList (map PyStr ["get"])) (with_items []) =
    Raise (RouteInvalidParameterException "Invalid response configuration: []").
Proof.
  split.
  - apply (C6_empty_response_sequence_rejected constants_ROUTE_METHODS elements
             elements_order example_str sync_handler "/items" ["get"]
             (with_items [PyNone]) [PyNone]).
    + apply allowed_verbs_check. vm_compute. reflexivity.
    + reflexivity.
    + repeat constructor.
  - apply (C6_empty_response_sequence_rejected constants_ROUTE_METHODS elements
             elements_order example_str sync_handler "/items" ["get"]
             (with_items []) []).
    + apply allowed_verbs_check. vm_compute. reflexivity.
    + reflexivity.
    + constructor.
Defined.

Lemma C7_witness :
  (exists f,
     Route_create_route_function constants_ROUTE_METHODS elements example_str
       sync_handler "/items" (PyList (map PyStr ["get"])) default_kwargs = Ok f /\
     response (route_params (route_of f)) = PyObj "ItemSchema") /\
  (exists f,
     Route_create_route_function constants_ROUTE_METHODS elements example_str
       async_handler "/items" (PyList (map PyStr ["get"])) default_kwargs = Ok f /\
     response (route_params (route_of f)) = NOT_SET).
Proof.
  split.
  - destruct (C7_unset_response_from_return_hint constants_ROUTE_METHODS elements
                elements_order example_str sync_handler "/items" ["get"]
                default_kwargs) as [Hhint _].
    + apply allowed_verbs_check. vm_compute. reflexivity.
    + reflexivity.
    + destruct (Hhint (PyObj "ItemSchema") (PyObj "ItemSchema"))
        as (f & Hf & Hr & _); [reflexivity..|].
      exists f. split; [exact Hf | exact Hr].
  - destruct (C7_unset_response_from_return_hint constants_ROUTE_METHODS elements
                elements_order example_str async_handler "/items" ["get"]
                default_kwargs) as [_ Hnone].
    + apply allowed_verbs_check. vm_compute. reflexivity.
    + reflexivity.
    + apply Hnone. reflexivity.
Defined.

Lemma C8_witness :
  (exists r, Route_create_route_function constants_ROUTE_METHODS elements example_str
       async_handler "/items" (PyList [PyStr "get"]) default_kwargs
             = Ok (AsyncRouteFunction r)) /\
  (exists r, Route_create_route_function constants_ROUTE_METHODS elements example_str
       sync_handler "/items" (PyList [PyStr "get"]) default_kwargs
             = Ok (RouteFunction r)).
Proof.
  split.
  - rewrite (proj1 (C8_variant_follows_handler constants_ROUTE_METHODS elements
                      example_str async_handler "/items" (PyList [PyStr "get"])
                      default_kwargs)).
    vm_compute. eexists. reflexivity.
  - rewrite (proj1 (C8_variant_follows_handler constants_ROUTE_METHODS elements
                      example_str sync_handler "/items" (PyList [PyStr "get"])
                      default_kwargs)).
    vm_compute. eexists. reflexivity.
Defined.

Lemma C9_witness :
  exists r d,
    Route_init constants_ROUTE_METHODS elements example_str sync_handler "/items"
      (PyList [PyStr "get"]) (with_items mixed_response) = Ok r /\
    response (route_params r) = PyDict d /\
    NoDup (dict_keys d).
Proof.
  assert (Hok : exists r,
    Route_init constants_ROUTE_METHODS elements example_str sync_handler "/items"
      (PyList [PyStr "get"]) (with_items mixed_response) = Ok r)
    by (eexists; vm_compute; reflexivity).
  destruct Hok as [r Hr]. exists r.
  destruct (C9_stored_response_shape constants_ROUTE_METHODS elements
              example_str sync_handler "/items"
              (PyList [PyStr "get"]) (with_items mixed_response) r Hr)
    as [(_ & Hlist & _)|(d & Hd & _ & Hnodup & _)].
  - exfalso. eapply Hlist. reflexivity.
  - exists d. split; [exact Hr|]. split; [exact Hd | exact Hnodup].
Defined.


(** ** Counterexamples *)

(** C3 as stated fails: the empty list of verbs is accepted and the
    descriptor stores an empty list. *)
Lemma C3_counterexample_empty_verb_list :
  exists r,
    Route_init constants_ROUTE_METHODS elements example_str sync_handler "/items"
      (PyList []) default_kwargs = Ok r /\
    methods (route_params r) = [].
Proof. eexists. split; vm_compute; reflexivity. Qed.

(** C4 as stated fails: [methods=["get", "GET"]] stores the list
    [["GET"; "GET"]], which is not the de-duplicated upper-cased input, in
    any order. *)
Lemma C4_counterexample_duplicates_kept :
  exists f,
    Route_generic constants_ROUTE_METHODS elements example_str "/items"
      (PyList [PyStr "get"; PyStr "GET"]) default_kwargs sync_handler = Ok f /\
    methods (route_params (route_of f)) = ["GET"; "GET"] /\
    ~ (methods (route_params (route_of f)) ≡ₚ remove_dups (map upper ["get"; "GET"])).
Proof.
  eexists. split; [vm_compute; reflexivity|]. split; [reflexivity|].
  intros Hperm. apply Permutation_length in Hperm. vm_compute in Hperm.
  discriminate.
Qed.

(** C9 as stated fails: a bare schema is stored as it is, neither the
    unset sentinel nor a mapping; and a mapping inside a list keeps a key
    that is not an integer. *)
Lemma C9_counterexample_other_shapes :
  (exists r,
     Route_init constants_ROUTE_METHODS elements example_str sync_handler "/items"
      (PyList [PyStr "get"])
       (with_response default_kwargs (PyObj "ItemSchema")) = Ok r /\
     response (route_params r) = PyObj "ItemSchema" /\
     response (route_params r) <> NOT_SET /\
     forall d, response (route_params r) <> PyDict d) /\
  (exists r,
     Route_init constants_ROUTE_METHODS elements example_str sync_handler "/items"
      (PyList [PyStr "get"])
       (with_items [PyDict [(PyStr "default", PyObj "ItemSchema")]]) = Ok r /\
     response (route_params r) = PyDict [(PyStr "default", PyObj "ItemSchema")]).
Proof.
  split.
  - eexists. split; [vm_compute; reflexivity|]. simpl.
    split; [reflexivity|]. split; [discriminate|]. intros d. discriminate.
  - eexists. split; [vm_compute; reflexivity|]. reflexivity.
Qed.

(** ** Examples *)

(** [[{200: SchemaA}, {200: SchemaB}]] is stored as [{200: SchemaB}]. *)
Example response_collision_later_wins :
  exists r,
    Route_init constants_ROUTE_METHODS elements example_str sync_handler "/items"
      (PyList [PyStr "get"])
      (with_items [PyDict [(PyInt 200, PyObj "SchemaA")];
                   PyDict [(PyInt 200, PyObj "SchemaB")]]) = Ok r /\
    response (route_params r) = PyDict [(PyInt 200, PyObj "SchemaB")].
Proof. eexists. split; vm_compute; reflexivity. Qed.

(** [{200: SchemaA}] passed alone is stored unchanged. *)
Example response_mapping_unchanged :
  exists r,
    Route_init constants_ROUTE_METHODS elements example_str sync_handler "/items"
      (PyList [PyStr "get"])
      (with_response default_kwargs (PyDict [(PyInt 200, PyObj "SchemaA")])) = Ok r /\
    response (route_params r) = PyDict [(PyInt 200, PyObj "SchemaA")].
Proof. eexists. split; vm_compute; reflexivity. Qed.

(** A tuple is not a list: [methods=("GET",)] is rejected. *)
Example methods_tuple_rejected :
  Route_init constants_ROUTE_METHODS elements example_str sync_handler "/items"
    (PyTuple [PyStr "GET"]) default_kwargs =
  Raise (RouteInvalidParameterException "methods must be a list").
Proof. reflexivity. Qed.

(** [[(201,)]] raises [IndexError], [[([], SchemaA)]] raises [TypeError]. *)
Example response_bad_tuples :
  Route_init constants_ROUTE_METHODS elements example_str sync_handler "/items"
    (PyList [PyStr "get"]) (with_items [PyTuple [PyInt 201]]) = Raise IndexError /\
  Route_init constants_ROUTE_METHODS elements example_str sync_handler "/items"
    (PyList [PyStr "get"]) (with_items [PyTuple [PyList []; PyObj "SchemaA"]])
    = Raise TypeError.
Proof. split; vm_compute; reflexivity. Qed.

(** ** Independence from the order of a set and from [str] *)

Lemma normalize_response_any_str (str str' : pyval -> string) (x : pyval) :
  (forall y, normalize_response str x = Ok y -> normalize_response str' x = Ok y) /\
  (forall e, (forall msg, e <> RouteInvalidParameterException msg) ->
             normalize_response str x = Raise e ->
             normalize_response str' x = Raise e) /\
  (is_invalid_parameter (normalize_response str x) ->
   is_invalid_parameter (normalize_response str' x)).
Proof.
  unfold normalize_response, is_invalid_parameter.
  destruct x as [| | | | | c n s | t | items | d]; simpl;
    try (split; [auto | split; [intros e _; discriminate
                               | intros [msg Hmsg]; discriminate]]).
  destruct (response_loop [] items) as [d|e0]; simpl.
  - destruct d as [|kv d].
    + split; [discriminate|]. split.
      * intros e He [= <-]. exfalso. eapply He. reflexivity.
      * intros _. eexists. reflexivity.
    + split; [auto|]. split; [discriminate | intros [msg Hmsg]; discriminate].
  - split; [discriminate|]. split; [auto|]. intros [msg Hmsg]. eauto.
Qed.

(** X12.  The outcome does not depend on the order in which Python
    iterates over a set, nor on how values print: under two such orders
    and two renderings the construction returns the same descriptor,
    raises the same exception of Python's own, or raises
    [RouteInvalidParameterException] in both cases; only the text of that
    message can differ. *)
Theorem X12_outcome_independent_of_set_order
    (ROUTE_METHODS : list string) (order order' : gset string -> list string)
    (str str' : pyval -> string)
    (vf : TCallable) (p : string) (verbs : pyval) (kw : route_kwargs) :
  (forall X, order X ≡ₚ elements X) ->
  (forall X, order' X ≡ₚ elements X) ->
  (forall r, Route_init ROUTE_METHODS order str vf p verbs kw = Ok r ->
             Route_init ROUTE_METHODS order' str' vf p verbs kw = Ok r) /\
  (forall e, (forall msg, e <> RouteInvalidParameterException msg) ->
             Route_init ROUTE_METHODS order str vf p verbs kw = Raise e ->
             Route_init ROUTE_METHODS order' str' vf p verbs kw = Raise e) /\
  (is_invalid_parameter (Route_init ROUTE_METHODS order str vf p verbs kw) ->
   is_invalid_parameter (Route_init ROUTE_METHODS order' str' vf p verbs kw)).
Proof.
  intros Horder Horder'. unfold Route_init.
  destruct verbs as [| | | | | | | l |];
    try (split; [discriminate | split;
           [intros e He [= <-]; exfalso; eapply He; reflexivity
           | intros _; eexists; reflexivity]]).
  destruct (upper_all l) as [strs|e0]; simpl.
  2:{ split; [discriminate|]. split; [auto|]. intros [msg Hmsg]. eexists. exact Hmsg. }
  destruct (not_valid_methods ROUTE_METHODS order strs) as [|bad rest] eqn:En.
  - assert (En' : not_valid_methods ROUTE_METHODS order' strs = []).
    { apply (not_valid_methods_nil ROUTE_METHODS order' Horder').
      apply (not_valid_methods_nil ROUTE_METHODS order Horder). exact En. }
    rewrite En'.
    destruct (normalize_response_any_str str str' (kw_response kw))
      as (Hok & Hraise & Hinv).
    destruct (normalize_response str (kw_response kw)) as [resp|e1] eqn:E1; simpl.
    + rewrite (Hok resp eq_refl). simpl.
      split; [auto|]. split; [discriminate | intros [msg Hmsg]; discriminate].
    + split; [discriminate|]. split.
      * intros e He [= <-]. rewrite (Hraise e1 He eq_refl). reflexivity.
      * intros [msg [= ->]]. destruct Hinv as [msg' Hmsg']; [eexists; reflexivity|].
        rewrite Hmsg'. simpl. eexists. reflexivity.
  - destruct (not_valid_methods ROUTE_METHODS order' strs) as [|bad' rest'] eqn:En'.
    + exfalso.
      assert (Hnil : not_valid_methods ROUTE_METHODS order strs = []).
      { apply (not_valid_methods_nil ROUTE_METHODS order Horder).
        apply (not_valid_methods_nil ROUTE_METHODS order' Horder'). exact En'. }
      rewrite Hnil in En. discriminate.
    + split; [discriminate|]. split.
      * intros e He [= <-]. exfalso. eapply He. reflexivity.
      * intros _. eexists. reflexivity.
Qed.

(** ** Instances of the further properties *)

Lemma reversed_order (X : gset string) : rev (elements X) ≡ₚ elements X.
Proof. symmetry. apply Permutation_rev. Qed.

Lemma X1_witness :
  ascii_methods (PyList (map PyStr ["trace"])) = true /\
  is_invalid_parameter
    (Route_init constants_ROUTE_METHODS elements example_str sync_handler "/items"
       (PyList (map PyStr ["trace"])) (with_items [PyTuple []])) /\
  Route_init constants_ROUTE_METHODS elements example_str sync_handler "/items"
    (PyList (map PyStr ["trace"])) (with_items [PyTuple []]) =
  Route_init constants_ROUTE_METHODS elements example_str async_handler "/other"
    (PyList (map PyStr ["trace"])) default_kwargs.
Proof.
  split; [reflexivity|].
  apply (X1_methods_checked_first constants_ROUTE_METHODS elements elements_order
           example_str sync_handler async_handler "/items" "/other"
           (with_items [PyTuple []]) default_kwargs (PyList (map PyStr ["trace"]))
           eq_refl).
  right. exists ["trace"], "trace". split; [reflexivity|]. split.
  - apply elem_of_cons. left. reflexivity.
  - apply disallowed_verb_check. vm_compute. reflexivity.
Defined.

Lemma X2_witness :
  Route_init constants_ROUTE_METHODS elements example_str sync_handler "/items"
    (PyList (map PyStr ["get"] ++ PyNone :: [PyStr "trace"])) default_kwargs
    = Raise AttributeError /\
  ~ is_invalid_parameter
      (Route_init constants_ROUTE_METHODS elements example_str sync_handler "/items"
         (PyList (map PyStr ["get"] ++ PyNone :: [PyStr "trace"])) default_kwargs).
Proof.
  apply (X2_non_string_verb_attribute_error constants_ROUTE_METHODS elements
           example_str sync_handler "/items" ["get"] PyNone [PyStr "trace"]
           default_kwargs).
  reflexivity.
Defined.

Lemma X3_witness :
  Route_generic constants_ROUTE_METHODS elements example_str "/items"
    (PyList (map PyStr ["gEt"])) default_kwargs sync_handler =
  Route_get constants_ROUTE_METHODS elements example_str "/items" default_kwargs
    sync_handler.
Proof.
  apply (X3_verbs_case_insensitive constants_ROUTE_METHODS elements example_str
           sync_handler "/items" ["gEt"] ["GET"] default_kwargs); reflexivity.
Defined.

Lemma X4_witness :
  forallb ascii_text ["get"; "post"] = true /\
  exists r,
    Route_init constants_ROUTE_METHODS elements example_str sync_handler "/items"
      (PyList (map PyStr ["get"; "post"])) (with_items mixed_response) = Ok r.
Proof.
  split; [reflexivity|].
  apply (proj2 (X4_construction_succeeds_iff constants_ROUTE_METHODS elements
                  elements_order example_str sync_handler "/items" ["get"; "post"]
                  (with_items mixed_response) eq_refl)).
  split.
  - apply allowed_verbs_check. vm_compute. reflexivity.
  - intros items Hitems. simpl in Hitems. injection Hitems as <-. split.
    + repeat constructor.
    + vm_compute. discriminate.
Defined.

Lemma X5_witness :
  exists r,
    Route_init constants_ROUTE_METHODS elements example_str sync_handler "/items"
      (PyList [PyStr "get"]) (with_items mixed_response) = Ok r /\
    Route_init constants_ROUTE_METHODS elements example_str sync_handler "/items"
      (PyList [PyStr "get"])
      (with_response (with_items mixed_response) (response (route_params r))) = Ok r.
Proof.
  assert (Hok : exists r,
    Route_init constants_ROUTE_METHODS elements example_str sync_handler "/items"
      (PyList [PyStr "get"]) (with_items mixed_response) = Ok r)
    by (eexists; vm_compute; reflexivity).
  destruct Hok as [r Hr]. exists r. split; [exact Hr|].
  apply (X5_stored_response_is_normal constants_ROUTE_METHODS elements example_str
           sync_handler "/items" (PyList [PyStr "get"]) (with_items mixed_response)
           r Hr).
Defined.

Lemma X6_witness :
  exists r d,
    Route_init constants_ROUTE_METHODS elements example_str sync_handler "/items"
      (PyList [PyStr "get"]) (with_items mixed_response) = Ok r /\
    response (route_params r) = PyDict d /\
    dict_keys d = [PyInt 200; PyInt 201; PyInt 404].
Proof.
  assert (Hok : exists r,
    Route_init constants_ROUTE_METHODS elements example_str sync_handler "/items"
      (PyList [PyStr "get"]) (with_items mixed_response) = Ok r)
    by (eexists; vm_compute; reflexivity).
  destruct Hok as [r Hr]. exists r.
  destruct (X6_keys_in_first_occurrence_order constants_ROUTE_METHODS elements
              example_str sync_handler "/items" (PyList [PyStr "get"])
              (with_items mixed_response) mixed_response r eq_refl Hr)
    as (d & Hd & Hkeys & _).
  exists d. split; [exact Hr|]. split; [exact Hd|]. rewrite Hkeys. reflexivity.
Defined.

Lemma X7_witness :
  exists f,
    Route_create_route_function constants_ROUTE_METHODS elements example_str
      {| coroutine := false; return_hint := Some (PyTuple []) |} "/items"
      (PyList (map PyStr ["get"])) default_kwargs = Ok f /\
    response (route_params (route_of f)) = NOT_SET.
Proof.
  apply (X7_falsy_return_hint_ignored constants_ROUTE_METHODS elements
           elements_order example_str
           {| coroutine := false; return_hint := Some (PyTuple []) |} "/items"
           ["get"] default_kwargs (PyTuple [])).
  - apply allowed_verbs_check. vm_compute. reflexivity.
  - reflexivity.
  - reflexivity.
  - reflexivity.
Defined.

Lemma X8_witness :
  exists f,
    Route_create_route_function constants_ROUTE_METHODS elements example_str
      sync_handler "/items" (PyList [PyStr "get"])
      (with_response default_kwargs (PyObj "OtherSchema")) = Ok f /\
    response (route_params (route_of f)) = PyObj "OtherSchema".
Proof.
  assert (Hok : exists f,
    Route_create_route_function constants_ROUTE_METHODS elements example_str
      sync_handler "/items" (PyList [PyStr "get"])
      (with_response default_kwargs (PyObj "OtherSchema")) = Ok f)
    by (eexists; vm_compute; reflexivity).
  destruct Hok as [f Hf]. exists f. split; [exact Hf|].
  assert (Hset : kw_response (with_response default_kwargs (PyObj "OtherSchema"))
                 <> NOT_SET) by discriminate.
  pose proof (proj2 (X8_explicit_response_kept constants_ROUTE_METHODS elements
                       example_str sync_handler "/items" (PyList [PyStr "get"])
                       (with_response default_kwargs (PyObj "OtherSchema")) Hset)
                f Hf) as Hn.
  simpl in Hn. injection Hn as Hn. symmetry. exact Hn.
Defined.

Lemma X9_witness :
  Route_init constants_ROUTE_METHODS elements example_str sync_handler "/items"
    (PyList [PyStr "get"])
    (with_response default_kwargs (PyList [PyDict [(PyInt 200, PyObj "SchemaA")]])) =
  Route_init constants_ROUTE_METHODS elements example_str sync_handler "/items"
    (PyList [PyStr "get"])
    (with_response default_kwargs (PyDict [(PyInt 200, PyObj "SchemaA")])).
Proof.
  apply (proj2 (X9_singleton_list_same_as_element constants_ROUTE_METHODS elements
                  example_str sync_handler "/items" (PyList [PyStr "get"])
                  default_kwargs)).
  - discriminate.
  - simpl. apply NoDup_singleton.
Defined.

Lemma X10_witness :
  Route_init constants_ROUTE_METHODS elements example_str sync_handler "/items"
    (PyList [PyStr "get"])
    (with_response default_kwargs
       (PyList ([PyNone] ++ PyTuple [PyInt 201; PyObj "SchemaB"] :: []))) =
  Route_init constants_ROUTE_METHODS elements example_str sync_handler "/items"
    (PyList [PyStr "get"])
    (with_response default_kwargs
       (PyList ([PyNone] ++ PyDict [(PyInt 201, PyObj "SchemaB")] :: []))).
Proof.
  apply (proj1 (X10_entry_forms_interchangeable constants_ROUTE_METHODS elements
                  example_str sync_handler "/items" (PyList [PyStr "get"])
                  default_kwargs [PyNone] [])).
  reflexivity.
Defined.

Lemma X12_witness :
  (Route_init constants_ROUTE_METHODS elements example_str sync_handler "/items"
     (PyList [PyStr "trace"; PyStr "get"; PyStr "head"]) default_kwargs =
     Raise (RouteInvalidParameterException "Method TRACE,HEAD not allowed") /\
   Route_init constants_ROUTE_METHODS (fun X => rev (elements X)) (fun _ => "")
     sync_handler "/items"
     (PyList [PyStr "trace"; PyStr "get"; PyStr "head"]) default_kwargs =
     Raise (RouteInvalidParameterException "Method HEAD,TRACE not allowed") /\
   is_invalid_parameter
     (Route_init constants_ROUTE_METHODS (fun X => rev (elements X)) (fun _ => "")
        sync_handler "/items"
        (PyList [PyStr "trace"; PyStr "get"; PyStr "head"]) default_kwargs)) /\
  (Route_init constants_ROUTE_METHODS elements example_str sync_handler "/items"
     (PyList [PyStr "get"]) (with_items [PyNone]) =
     Raise (RouteInvalidParameterException "Invalid response configuration: [None]") /\
   is_invalid_parameter
     (Route_init constants_ROUTE_METHODS (fun X => rev (elements X)) (fun _ => "")
        sync_handler "/items" (PyList [PyStr "get"]) (with_items [PyNone]))) /\
  (exists r,
     Route_init constants_ROUTE_METHODS elements example_str sync_handler "/items"
       (PyList [PyStr "get"; PyStr "post"]) (with_items mixed_response) = Ok r /\
     Route_init constants_ROUTE_METHODS (fun X => rev (elements X)) (fun _ => "")
       sync_handler "/items"
       (PyList [PyStr "get"; PyStr "post"]) (with_items mixed_response) = Ok r).
Proof.
  split; [|split].
  - split; [vm_compute; reflexivity|]. split; [vm_compute; reflexivity|].
    apply (proj2 (proj2 (X12_outcome_independent_of_set_order
                           constants_ROUTE_METHODS elements
                           (fun X => rev (elements X)) example_str (fun _ => "")
                           sync_handler "/items"
                           (PyList [PyStr "trace"; PyStr "get"; PyStr "head"])
                           default_kwargs elements_order reversed_order))).
    eexists. vm_compute. reflexivity.
  - split; [vm_compute; reflexivity|].
    apply (proj2 (proj2 (X12_outcome_independent_of_set_order
                           constants_ROUTE_METHODS elements
                           (fun X => rev (elements X)) example_str (fun _ => "")
                           sync_handler "/items" (PyList [PyStr "get"])
                           (with_items [PyNone]) elements_order reversed_order))).
    eexists. vm_compute. reflexivity.
  - assert (Hok : exists r,
      Route_init constants_ROUTE_METHODS elements example_str sync_handler "/items"
        (PyList [PyStr "get"; PyStr "post"]) (with_items mixed_response) = Ok r)
      by (eexists; vm_compute; reflexivity).
    destruct Hok as [r Hr]. exists r. split; [exact Hr|].
    apply (proj1 (X12_outcome_independent_of_set_order constants_ROUTE_METHODS
                    elements (fun X => rev (elements X)) example_str (fun _ => "")
                    sync_handler "/items" (PyList [PyStr "get"; PyStr "post"])
                    (with_items mixed_response) elements_order reversed_order)
             r Hr).
Defined.

Lemma X13_witness :
  exists r r' d d',
    Route_init constants_ROUTE_METHODS elements example_str sync_handler "/items"
      (PyList [PyStr "get"])
      (with_response default_kwargs (PyList [PyDict [(PyInt 200, PyObj "SchemaA")]]))
      = Ok r /\
    Route_init constants_ROUTE_METHODS elements example_str sync_handler "/items"
      (PyList [PyStr "get"])
      (with_response default_kwargs
         (PyList ([PyDict [(PyInt 200, PyObj "SchemaA")]]
                    ++ [PyTuple [PyInt 201; PyObj "SchemaB"]]))) = Ok r' /\
    response (route_params r) = PyDict d /\
    response (route_params r') = PyDict d' /\
    (forall k, k ∈ dict_keys d -> k ∈ dict_keys d').
Proof.
  assert (Hok : exists r,
    Route_init constants_ROUTE_METHODS elements example_str sync_handler "/items"
      (PyList [PyStr "get"])
      (with_response default_kwargs (PyList [PyDict [(PyInt 200, PyObj "SchemaA")]]))
      = Ok r) by (eexists; vm_compute; reflexivity).
  assert (Hok' : exists r',
    Route_init constants_ROUTE_METHODS elements example_str sync_handler "/items"
      (PyList [PyStr "get"])
      (with_response default_kwargs
         (PyList ([PyDict [(PyInt 200, PyObj "SchemaA")]]
                    ++ [PyTuple [PyInt 201; PyObj "SchemaB"]]))) = Ok r')
    by (eexists; vm_compute; reflexivity).
  destruct Hok as [r Hr]. destruct Hok' as [r' Hr']. exists r, r'.
  destruct (X13_extension_keeps_earlier_entries constants_ROUTE_METHODS elements
              example_str sync_handler "/items" (PyList [PyStr "get"])
              default_kwargs [PyDict [(PyInt 200, PyObj "SchemaA")]]
              [PyTuple [PyInt 201; PyObj "SchemaB"]] r r' Hr Hr')
    as (d & d' & Hd & Hd' & Hkeys & _).
  exists d, d'. repeat split; assumption.
Defined.

Lemma X14_witness :
  Route_init constants_ROUTE_METHODS elements example_str sync_handler "/items"
    (PyList (map PyStr ["get"]))
    (with_response default_kwargs
       (PyList ([PyDict [(PyInt 200, PyObj "SchemaA")]]
                  ++ PyTuple (PyList [] :: PyObj "SchemaB" :: []) :: []))) =
  Raise TypeError.
Proof.
  apply (X14_unhashable_key_type_error constants_ROUTE_METHODS elements
           elements_order example_str sync_handler "/items" ["get"] default_kwargs
           [PyDict [(PyInt 200, PyObj "SchemaA")]] [] [] (PyList [])
           (PyObj "SchemaB")).
  - apply allowed_verbs_check. vm_compute. reflexivity.
  - repeat constructor.
  - reflexivity.
Defined.

Lemma X15_witness :
  exists r,
    Route_init constants_ROUTE_METHODS elements example_str sync_handler "/items"
      (PyList [PyStr "get"; PyStr "Post"]) default_kwargs = Ok r /\
    Route_init constants_ROUTE_METHODS elements example_str sync_handler "/items"
      (PyList (map PyStr (methods (route_params r)))) default_kwargs = Ok r.
Proof.
  assert (Hok : exists r,
    Route_init constants_ROUTE_METHODS elements example_str sync_handler "/items"
      (PyList [PyStr "get"; PyStr "Post"]) default_kwargs = Ok r)
    by (eexists; vm_compute; reflexivity).
  destruct Hok as [r Hr]. exists r. split; [exact Hr|].
  apply (X15_stored_methods_round_trip constants_ROUTE_METHODS elements
           example_str sync_handler "/items" (PyList [PyStr "get"; PyStr "Post"])
           default_kwargs r Hr).
Defined.
